(** * Sustainable Design API: the request handlers of [backend/app.py]

    A shallow embedding of the Flask handlers of [backend/app.py] and of the
    start-up block that trains the ML models.  The handlers are written in a
    small exception monad that also records every call made to a collaborator
    object ([constraint_engine], [design_generator], [evaluator], the three
    ML models and the database layer).  Those collaborators live in modules
    that [app.py] only imports, so they appear here as records of functions,
    one record per Python class. *)

From Stdlib Require Import ZArith Floats.
From stdpp Require Import gmap strings list fin_maps.

Local Open Scope string_scope.
Local Open Scope list_scope.
Local Open Scope Z_scope.

(** ** Python values

    The values that travel through the handlers: JSON bodies, the dicts the
    collaborators hand back, and tuples.  Dict keys are strings throughout
    [app.py].  A [float] is a binary64, as in CPython. *)

Inductive pyval : Type :=
| PNone
| PBool (b : bool)
| PInt (z : Z)
| PFloat (f : float)
| PStr (s : string)
| PList (l : list pyval)
| PTuple (l : list pyval)
| PDict (m : gmap string pyval).

(** An exception instance: its class name and [str(e)].  Every exception
    here is an instance of [Exception], which is what both [except Exception]
    and the bare [except:] clauses of [app.py] catch. *)
Inductive exn : Type := Exn (cls : string) (msg : string).

Definition str_exn (e : exn) : string :=
  match e with Exn _ msg => msg end.

Inductive result (A : Type) : Type :=
| Ok (a : A)
| Raise (e : exn).
Arguments Ok {A} a.
Arguments Raise {A} e.

Definition rbind {A B} (r : result A) (k : A -> result B) : result B :=
  match r with
  | Ok a => k a
  | Raise e => Raise e
  end.

Notation "'let?' x ':=' m 'in' k" := (rbind m (fun x => k))
  (at level 10, x pattern, m at level 100, k at level 200).
Notation "'let?' ' p ':=' m 'in' k" :=
  (rbind m (fun x => match x with p => k end))
  (at level 10, p pattern, m at level 100, k at level 200).

Fixpoint rmap {A B} (f : A -> result B) (l : list A) : result (list B) :=
  match l with
  | [] => Ok []
  | x :: xs =>
      let? y := f x in
      let? ys := rmap f xs in
      Ok (y :: ys)
  end.

(** ** Builtins *)

Definition type_name (v : pyval) : string :=
  match v with
  | PNone => "NoneType"
  | PBool _ => "bool"
  | PInt _ => "int"
  | PFloat _ => "float"
  | PStr _ => "str"
  | PList _ => "list"
  | PTuple _ => "tuple"
  | PDict _ => "dict"
  end.

(** Truth value testing, as used by [if x:] and [not x]. *)
Definition truthy (v : pyval) : bool :=
  match v with
  | PNone => false
  | PBool b => b
  | PInt z => negb (z =? 0)
  | PFloat f => negb (PrimFloat.eqb f 0%float)
  | PStr s => negb (String.eqb s "")
  | PList l | PTuple l => negb (Nat.eqb (length l) 0)
  | PDict m => negb (Nat.eqb (size m) 0)
  end.

(** [x is None] *)
Definition is_none (v : pyval) : bool :=
  match v with PNone => true | _ => false end.

(** [obj.get(key, default)]: only a dict has the method. *)
Definition py_get (obj : pyval) (key : string) (default : pyval) : result pyval :=
  match obj with
  | PDict m => Ok (match m !! key with Some v => v | None => default end)
  | _ => Raise (Exn "AttributeError"
                  ("'" +:+ type_name obj +:+ "' object has no attribute 'get'"))
  end.

(** [obj[key]] with a string key. *)
Definition py_getitem (obj : pyval) (key : string) : result pyval :=
  match obj with
  | PDict m =>
      match m !! key with
      | Some v => Ok v
      | None => Raise (Exn "KeyError" ("'" +:+ key +:+ "'"))
      end
  | PList _ | PTuple _ =>
      Raise (Exn "TypeError"
               (type_name obj +:+ " indices must be integers or slices, not str"))
  | PStr _ =>
      Raise (Exn "TypeError" "string indices must be integers, not 'str'")
  | _ => Raise (Exn "TypeError"
                  ("'" +:+ type_name obj +:+ "' object is not subscriptable"))
  end.

(** [obj[key] = v] with a string key; the updated object is returned. *)
Definition py_setitem (obj : pyval) (key : string) (v : pyval) : result pyval :=
  match obj with
  | PDict m => Ok (PDict (<[key := v]> m))
  | PList _ =>
      Raise (Exn "TypeError" "list indices must be integers or slices, not str")
  | _ => Raise (Exn "TypeError"
                  ("'" +:+ type_name obj +:+ "' object does not support item assignment"))
  end.

(** [names[i]] on a list literal of strings: ints (and bools, which are ints)
    index from either end. *)
Definition py_list_index (names : list string) (i : pyval) : result pyval :=
  let at_int (z : Z) :=
    let n := Z.of_nat (length names) in
    let k := if z <? 0 then z + n else z in
    if (0 <=? k) && (k <? n)
    then match names !! Z.to_nat k with
         | Some s => Ok (PStr s)
         | None => Raise (Exn "IndexError" "list index out of range")
         end
    else Raise (Exn "IndexError" "list index out of range") in
  match i with
  | PInt z => at_int z
  | PBool b => at_int (if b then 1 else 0)
  | _ => Raise (Exn "TypeError"
                  ("list indices must be integers or slices, not " +:+ type_name i))
  end.

(** What a [for] loop or a comprehension iterates over.  A dict yields its
    keys, here in the order of the map. *)
Definition py_iter (obj : pyval) : result (list pyval) :=
  match obj with
  | PList l | PTuple l => Ok l
  | PStr s => Ok ((fun a => PStr (String a "")) <$> String.list_ascii_of_string s)
  | PDict m => Ok ((fun kv => PStr kv.1) <$> map_to_list m)
  | _ => Raise (Exn "TypeError"
                  ("'" +:+ type_name obj +:+ "' object is not iterable"))
  end.

(** [a, b = obj] *)
Definition py_unpack2 (obj : pyval) : result (pyval * pyval) :=
  let? items := py_iter obj in
  match items with
  | [a; b] => Ok (a, b)
  | _ => Raise (Exn "ValueError" "wrong number of values to unpack (expected 2)")
  end.

(** [len(obj)] *)
Definition py_len (obj : pyval) : result Z :=
  match obj with
  | PList l | PTuple l => Ok (Z.of_nat (length l))
  | PStr s => Ok (Z.of_nat (String.length s))
  | PDict m => Ok (Z.of_nat (size m))
  | _ => Raise (Exn "TypeError"
                  ("object of type '" +:+ type_name obj +:+ "' has no len()"))
  end.

(** The parts of the builtins whose digits play no role in control flow:
    decimal rounding of a float ([round(x, n)] returns a float for every
    float [x]) and the numeral parser behind [int(s)]. *)
Record builtins : Type := {
  float_round : float -> Z -> float;
  int_of_str : string -> result Z;
}.

(** [round(x, ndigits)] with [ndigits >= 0]. *)
Definition py_round (B : builtins) (x : pyval) (ndigits : Z) : result pyval :=
  match x with
  | PInt z => Ok (PInt z)
  | PBool b => Ok (PInt (if b then 1 else 0))
  | PFloat f => Ok (PFloat (float_round B f ndigits))
  | _ => Raise (Exn "TypeError"
                  ("type " +:+ type_name x +:+ " doesn't define __round__ method"))
  end.

(** [int(x)]: floats truncate toward zero; NaN and the infinities raise. *)
Definition py_int (B : builtins) (x : pyval) : result Z :=
  match x with
  | PInt z => Ok z
  | PBool b => Ok (if b then 1 else 0)
  | PFloat f =>
      match Prim2SF f with
      | S754_zero _ => Ok 0
      | S754_finite s m e =>
          let mag := Z.shiftl (Z.pos m) e in
          Ok (if s then - mag else mag)
      | S754_infinity _ =>
          Raise (Exn "OverflowError" "cannot convert float infinity to integer")
      | S754_nan => Raise (Exn "ValueError" "cannot convert float NaN to integer")
      end
  | PStr s => int_of_str B s
  | _ => Raise (Exn "TypeError"
                  ("int() argument must be a string, a bytes-like object or a real number, not '"
                     +:+ type_name x +:+ "'"))
  end.

(** ** The collaborators

    One record per class that [app.py] instantiates at import time.  A method
    call either returns a value or raises.  [validate] returns the pair that
    the handlers unpack as [is_valid, errors]. *)

Module ConstraintEngine.
Record t : Type := {
  validate : pyval -> result (pyval * pyval);
  process : pyval -> result pyval;
  calculate_feasibility : pyval -> result pyval;
}.
End ConstraintEngine.

Module DesignGenerator.
Record t : Type := {
  generate : pyval -> result pyval;
}.
End DesignGenerator.

Module SustainabilityEvaluator.
Record t : Type := {
  evaluate : pyval -> pyval -> result pyval;
  rank_designs : pyval -> result pyval;
}.
End SustainabilityEvaluator.

Module SimpleCostPredictor.
Record t : Type := {
  train : pyval -> result unit;
  predict : pyval -> pyval -> pyval -> pyval -> pyval -> result pyval;
  get_feature_importance : result pyval;
}.
End SimpleCostPredictor.

Module SimpleDesignRanker.
Record t : Type := {
  train : pyval -> result unit;
  rank_designs : pyval -> pyval -> result pyval;
}.
End SimpleDesignRanker.

Module SimpleDesignRecommender.
Record t : Type := {
  learn_from_history : pyval -> result unit;
  recommend_design : pyval -> option Z -> result pyval;
}.
End SimpleDesignRecommender.

(** The functions imported from [data_loader] and [simple_ml] that feed the
  training block. *)
Module DataLoader.
Record t : Type := {
  auto_load_training_data : result pyval;
  prepare_cost_training_data : pyval -> result pyval;
  prepare_preference_training_data : pyval -> result pyval;
  prepare_historical_training_data : pyval -> result pyval;
  generate_synthetic_cost_data : Z -> result pyval;
  generate_synthetic_preference_data : Z -> result pyval;
  generate_synthetic_historical_projects : Z -> result pyval;
}.
End DataLoader.

(** The module-level state of [app.py]. *)
Record app : Type := {
  py : builtins;
  constraint_engine : ConstraintEngine.t;
  design_generator : DesignGenerator.t;
  evaluator : SustainabilityEvaluator.t;
  cost_predictor : SimpleCostPredictor.t;
  design_ranker : SimpleDesignRanker.t;
  design_recommender : SimpleDesignRecommender.t;
  data_loader : DataLoader.t;
  (* save_project(constraints, designs, ml, user_id=...) *)
  save_project : pyval -> pyval -> pyval -> pyval -> result pyval;
}.

(** ** The handler monad

    A computation may raise, and it records the collaborator calls it makes,
    oldest first.  The record is what lets a statement such as "the generator
    is never invoked" be expressed. *)

Inductive call : Type :=
| CallValidate (data : pyval)
| CallProcess (data : pyval)
| CallFeasibility (processed : pyval)
| CallGenerate (constraints : pyval)
| CallEvaluate (design constraints : pyval)
| CallRuleRank (designs : pyval)
| CallPredict (area budget climate priority idx : pyval)
| CallFeatureImportance
| CallMLRank (designs constraints : pyval)
| CallRecommend (constraints : pyval) (top_n : option Z)
| CallSaveProject (constraints designs ml user_id : pyval).

Definition M (A : Type) : Type := list call -> result A * list call.

Definition ret {A} (a : A) : M A := fun t => (Ok a, t).

Definition bind {A B} (m : M A) (k : A -> M B) : M B :=
  fun t =>
    match m t with
    | (Ok a, t') => k a t'
    | (Raise e, t') => (Raise e, t')
    end.

Notation "'let!' x ':=' m 'in' k" := (bind m (fun x => k))
  (at level 10, x pattern, m at level 100, k at level 200).
Notation "'let!' ' p ':=' m 'in' k" :=
  (bind m (fun x => match x with p => k end))
  (at level 10, p pattern, m at level 100, k at level 200).

(** A builtin operation: it may raise but calls no collaborator. *)
Definition lift {A} (r : result A) : M A := fun t => (r, t).

(** A call to a collaborator, recorded before its outcome is used. *)
Definition invoke {A} (c : call) (r : result A) : M A := fun t => (r, t ++ [c]).

(** [try: body  except ...: handler] *)
Definition try_except {A} (body : M A) (handler : exn -> M A) : M A :=
  fun t =>
    match body t with
    | (Ok a, t') => (Ok a, t')
    | (Raise e, t') => handler e t'
    end.

(** ** Start-up: lines 145-178 *)

(** The body of the [try] block that trains the three models. *)
Definition train_models (E : app) : result unit :=
  let L := data_loader E in
  let? real_data := DataLoader.auto_load_training_data L in
  let? cost := py_getitem real_data "cost" in
  if truthy cost then
    let? cost := py_getitem real_data "cost" in
    let? samples := DataLoader.prepare_cost_training_data L cost in
    let? _ := SimpleCostPredictor.train (cost_predictor E) samples in
    let? preference := py_getitem real_data "preference" in
    let? samples := DataLoader.prepare_preference_training_data L preference in
    let? _ := SimpleDesignRanker.train (design_ranker E) samples in
    let? historical := py_getitem real_data "historical" in
    let? samples := DataLoader.prepare_historical_training_data L historical in
    let? _ := SimpleDesignRecommender.learn_from_history (design_recommender E) samples in
    let? cost := py_getitem real_data "cost" in
    let? _ := py_len cost in
    Ok tt
  else
    let? samples := DataLoader.generate_synthetic_cost_data L 200 in
    let? _ := SimpleCostPredictor.train (cost_predictor E) samples in
    let? samples := DataLoader.generate_synthetic_preference_data L 150 in
    let? _ := SimpleDesignRanker.train (design_ranker E) samples in
    let? samples := DataLoader.generate_synthetic_historical_projects L 100 in
    let? _ := SimpleDesignRecommender.learn_from_history (design_recommender E) samples in
    Ok tt.

(** The global flag as it stands once the module has been imported. *)
Definition ml_models_ready (E : app) : bool :=
  match train_models E with
  | Ok _ => true          (* line 174 *)
  | Raise _ => true       (* line 178: "Still ready with defaults" *)
  end.

(** ** Routes *)

(** [jsonify(body), status] *)
Definition response : Type := gmap string pyval * Z.

Definition jsonify (body : gmap string pyval) : gmap string pyval := body.

(** [GET /api/health] *)
Definition health (E : app) (now : string) : M response :=
  ret (jsonify {[ "status" := PStr "healthy";
                  "service" := PStr "Sustainable Design API";
                  "ml_enabled" := PBool (ml_models_ready E);
                  "timestamp" := PStr now ]}, 200).

(** [POST /api/constraints/validate] *)
Definition validate_constraints (E : app) (request_json : pyval) : M response :=
  try_except
    (let data := request_json in
     let! '(is_valid, errors) :=
       invoke (CallValidate data)
              (ConstraintEngine.validate (constraint_engine E) data) in
     if negb (truthy is_valid) then
       ret (jsonify {[ "valid" := PBool false; "errors" := errors ]}, 400)
     else
       let! processed :=
         invoke (CallProcess data)
                (ConstraintEngine.process (constraint_engine E) data) in
       let! feasibility :=
         invoke (CallFeasibility processed)
                (ConstraintEngine.calculate_feasibility (constraint_engine E) processed) in
       ret (jsonify {[ "valid" := PBool true;
                       "original" := data;
                       "processed" := processed;
                       "feasibility_score" := feasibility ]}, 200))
    (fun e => ret (jsonify {[ "error" := PStr (str_exn e) ]}, 500)).

(** Lines 262-275: the optional cost prediction for one design. *)
Definition add_predicted_cost (E : app) (constraints : pyval) (idx : Z)
    (design : pyval) : M pyval :=
  if ml_models_ready E then
    try_except
      (let! area := lift (py_getitem constraints "area") in
       let! budget := lift (py_getitem constraints "budget") in
       let! climate := lift (py_getitem constraints "climate") in
       let! priority := lift (py_getitem constraints "priority") in
       let! predicted_cost :=
         invoke (CallPredict area budget climate priority (PInt idx))
                (SimpleCostPredictor.predict (cost_predictor E)
                   area budget climate priority (PInt idx)) in
       if truthy predicted_cost then
         lift (py_setitem design "ml_predicted_cost" predicted_cost)
       else ret design)
      (fun _ => ret design)
  else ret design.

(** Lines 259-277: one turn of the loop over [enumerate(designs)].  The
    source updates the design dict in place and appends it; the updated dict
    is threaded here.  That is the same as long as the generator hands out a
    dict of its own for every design ([unshared] below): the loop on a store
    of objects, [evaluate_all_in_place], is shown to agree with this one in
    [evaluate_all_in_place_unshared], and to differ from it on a list that
    holds one dict three times in [evaluate_all_in_place_shared]. *)
Definition evaluate_one (E : app) (constraints : pyval) (idx : Z)
    (design : pyval) : M pyval :=
  let! metrics :=
    invoke (CallEvaluate design constraints)
           (SustainabilityEvaluator.evaluate (evaluator E) design constraints) in
  let! design := lift (py_setitem design "metrics" metrics) in
  add_predicted_cost E constraints idx design.

Fixpoint evaluate_all (E : app) (constraints : pyval) (idx : Z)
    (designs : list pyval) : M (list pyval) :=
  match designs with
  | [] => ret []
  | design :: rest =>
      let! design := evaluate_one E constraints idx design in
      let! evaluated := evaluate_all E constraints (idx + 1) rest in
      ret (design :: evaluated)
  end.

(** [{'id': d.get('id'), 'ml_score': round(score, 2)}] for one [(d, score)]. *)
Definition ranking_row (E : app) (item : pyval) : result pyval :=
  let? '(d, score) := py_unpack2 item in
  let? id := py_get d "id" PNone in
  let? ml_score := py_round (py E) score 2 in
  Ok (PDict {[ "id" := id; "ml_score" := ml_score ]}).

(** Lines 279-287 and 466-474: the ML ranking, [None] when it fails. *)
Definition ml_rank (E : app) (designs constraints : pyval) : M pyval :=
  if ml_models_ready E then
    try_except
      (let! ranked :=
         invoke (CallMLRank designs constraints)
                (SimpleDesignRanker.rank_designs (design_ranker E) designs constraints) in
       let! items := lift (py_iter ranked) in
       let! rows := lift (rmap (ranking_row E) items) in
       ret (PList rows))
      (fun _ => ret PNone)
  else ret PNone.

(** Lines 289-295: the recommendation, [None] when it fails. *)
Definition ml_recommend (E : app) (constraints : pyval) : M pyval :=
  if ml_models_ready E then
    try_except
      (invoke (CallRecommend constraints None)
              (SimpleDesignRecommender.recommend_design (design_recommender E)
                 constraints None))
      (fun _ => ret PNone)
  else ret PNone.

(** Lines 309-317: persistence; a failure leaves the response as it is. *)
Definition persist (E : app) (constraints evaluated ml_rankings recommendations
    user_id : pyval) (resp : gmap string pyval) : M (gmap string pyval) :=
  let ml := PDict {[ "ml_rankings" := ml_rankings;
                     "recommendations" := recommendations ]} in
  try_except
    (let! project_id :=
       invoke (CallSaveProject constraints evaluated ml user_id)
              (save_project E constraints evaluated ml user_id) in
     ret (<["project_id" := project_id]> resp))
    (fun _ => ret resp).

(** [POST /api/designs/generate] *)
Definition generate_designs (E : app) (now : string) (request_json : pyval)
    : M response :=
  try_except
    (let constraints := request_json in
     let! user_id := lift (py_get constraints "user_id" PNone) in
     let! '(is_valid, _) :=
       invoke (CallValidate constraints)
              (ConstraintEngine.validate (constraint_engine E) constraints) in
     if negb (truthy is_valid) then
       ret (jsonify {[ "error" := PStr "Invalid constraints" ]}, 400)
     else
       let! designs :=
         invoke (CallGenerate constraints)
                (DesignGenerator.generate (design_generator E) constraints) in
       let! designs := lift (py_iter designs) in
       let! evaluated_designs := evaluate_all E constraints 0 designs in
       let! ml_rankings := ml_rank E (PList evaluated_designs) constraints in
       let! recommendations := ml_recommend E constraints in
       let resp : gmap string pyval :=
         {[ "designs" := PList evaluated_designs;
            "count" := PInt (Z.of_nat (length evaluated_designs));
            "constraints" := constraints;
            "generated_at" := PStr now ]} in
       let resp :=
         if ml_models_ready E then
           <["recommendations" := recommendations]>
             (<["ml_rankings" := ml_rankings]> resp)
         else resp in
       let! resp :=
         persist E constraints (PList evaluated_designs) ml_rankings
                 recommendations user_id resp in
       ret (jsonify resp, 200))
    (fun e => ret (jsonify {[ "error" := PStr (str_exn e) ]}, 500)).

(** [POST /api/comparison/rankings] *)
Definition get_rankings (E : app) (request_json : pyval) : M response :=
  try_except
    (let data := request_json in
     let! designs := lift (py_get data "designs" (PList [])) in
     let! constraints := lift (py_get data "constraints" (PDict ∅)) in
     if negb (truthy designs) then
       ret (jsonify {[ "error" := PStr "No designs provided" ]}, 400)
     else
       let! rule_based_rankings :=
         invoke (CallRuleRank designs)
                (SustainabilityEvaluator.rank_designs (evaluator E) designs) in
       let! ml_rankings := ml_rank E designs constraints in
       let! total := lift (py_len designs) in
       let resp : gmap string pyval :=
         {[ "rule_based_rankings" := rule_based_rankings;
            "total_designs" := PInt total ]} in
       let resp :=
         if truthy ml_rankings then <["ml_rankings" := ml_rankings]> resp
         else resp in
       ret (jsonify resp, 200))
    (fun e => ret (jsonify {[ "error" := PStr (str_exn e) ]}, 500)).

(** [POST /api/ml/cost-prediction] *)
Definition predict_cost (E : app) (request_json : pyval) : M response :=
  if negb (ml_models_ready E) then
    ret (jsonify {[ "error" := PStr "ML models not available" ]}, 503)
  else
    try_except
      (let data := request_json in
       let! area := lift (py_get data "area" (PInt 1000)) in
       let! budget := lift (py_get data "budget" (PInt 50)) in
       let! climate := lift (py_get data "climate" (PStr "moderate")) in
       let! priority := lift (py_get data "priority" (PStr "energy")) in
       let! design_id := lift (py_get data "design_id" (PInt 0)) in
       let! predicted_cost :=
         invoke (CallPredict area budget climate priority design_id)
                (SimpleCostPredictor.predict (cost_predictor E)
                   area budget climate priority design_id) in
       if is_none predicted_cost then
         ret (jsonify {[ "error" := PStr "Prediction failed" ]}, 500)
       else
         let! importance :=
           invoke CallFeatureImportance
                  (SimpleCostPredictor.get_feature_importance (cost_predictor E)) in
         let! cost := lift (py_int (py E) predicted_cost) in
         ret (jsonify {[ "predicted_cost" := PInt cost;
                         "confidence" := PFloat 0.85%float;
                         "feature_importance" := importance;
                         "model" := PStr "LinearRegression" ]}, 200))
      (fun e => ret (jsonify {[ "error" := PStr (str_exn e) ]}, 500)).

(** The list literal at line 557. *)
Definition design_names : list string :=
  ["Eco-Efficient"; "Carbon-Optimized"; "Regenerative"].

(** [POST /api/ml/recommendations] *)
Definition get_recommendations (E : app) (request_json : pyval) : M response :=
  if negb (ml_models_ready E) then
    ret (jsonify {[ "error" := PStr "ML models not available" ]}, 503)
  else
    try_except
      (let constraints := request_json in
       let! recommendations :=
         invoke (CallRecommend constraints (Some 3))
                (SimpleDesignRecommender.recommend_design (design_recommender E)
                   constraints (Some 3)) in
       let! rd := lift (py_getitem recommendations "recommended_design") in
       let! name :=
         if negb (is_none rd) then
           let! rd := lift (py_getitem recommendations "recommended_design") in
           lift (py_list_index design_names rd)
         else ret PNone in
       let! id := lift (py_getitem recommendations "recommended_design") in
       let! confidence := lift (py_getitem recommendations "confidence") in
       let! confidence := lift (py_round (py E) confidence 3) in
       ret (jsonify {[ "recommended_design" := name;
                       "recommended_design_id" := id;
                       "confidence" := confidence;
                       "model" := PStr "HistoricalSimilarity" ]}, 200))
      (fun e => ret (jsonify {[ "error" := PStr (str_exn e) ]}, 500)).

(** ** What a request that passes validation, generation and evaluation
       returns, as plain functions of the collaborators' answers

    These follow lines 259-317 without the call record; the lemmas below
    connect them to the monadic handlers. *)

(** The value line 273 stores, if any: a prediction that is truthy. *)
Definition predicted_cost_for (E : app) (constraints : pyval) (idx : Z)
    : option pyval :=
  let outcome :=
    let? area := py_getitem constraints "area" in
    let? budget := py_getitem constraints "budget" in
    let? climate := py_getitem constraints "climate" in
    let? priority := py_getitem constraints "priority" in
    SimpleCostPredictor.predict (cost_predictor E)
      area budget climate priority (PInt idx) in
  match outcome with
  | Ok v => if truthy v then Some v else None
  | Raise _ => None
  end.

Definition evaluated_design (E : app) (constraints : pyval) (idx : Z)
    (design : gmap string pyval) (metrics : pyval) : gmap string pyval :=
  let design := <["metrics" := metrics]> design in
  match predicted_cost_for E constraints idx with
  | Some cost => <["ml_predicted_cost" := cost]> design
  | None => design
  end.

Fixpoint evaluated_from (E : app) (constraints : pyval) (idx : Z)
    (designs : list (gmap string pyval)) (metrics : list pyval)
    : list (gmap string pyval) :=
  match designs, metrics with
  | d :: ds, m :: ms =>
      evaluated_design E constraints idx d m
        :: evaluated_from E constraints (idx + 1) ds ms
  | _, _ => []
  end.

Definition ml_rankings_of (E : app) (designs constraints : pyval) : pyval :=
  let outcome :=
    let? ranked :=
      SimpleDesignRanker.rank_designs (design_ranker E) designs constraints in
    let? items := py_iter ranked in
    let? rows := rmap (ranking_row E) items in
    Ok (PList rows) in
  match outcome with
  | Ok v => v
  | Raise _ => PNone
  end.

Definition recommendations_of (E : app) (constraints : pyval) : pyval :=
  match SimpleDesignRecommender.recommend_design (design_recommender E)
          constraints None with
  | Ok v => v
  | Raise _ => PNone
  end.

(** The response dict of lines 297-307. *)
Definition computed_body (E : app) (now : string) (constraints : pyval)
    (designs : list (gmap string pyval)) (metrics : list pyval)
    : gmap string pyval :=
  let evaluated := PDict <$> evaluated_from E constraints 0 designs metrics in
  <["recommendations" := recommendations_of E constraints]>
    (<["ml_rankings" := ml_rankings_of E (PList evaluated) constraints]>
       {[ "designs" := PList evaluated;
          "count" := PInt (Z.of_nat (length evaluated));
          "constraints" := constraints;
          "generated_at" := PStr now ]}).

(** The same after lines 309-317. *)
Definition success_body (E : app) (now : string) (constraints user_id : pyval)
    (designs : list (gmap string pyval)) (metrics : list pyval)
    : gmap string pyval :=
  let evaluated := PDict <$> evaluated_from E constraints 0 designs metrics in
  let ml :=
    PDict {[ "ml_rankings" := ml_rankings_of E (PList evaluated) constraints;
             "recommendations" := recommendations_of E constraints ]} in
  let body := computed_body E now constraints designs metrics in
  match save_project E constraints (PList evaluated) ml user_id with
  | Ok project_id => <["project_id" := project_id]> body
  | Raise _ => body
  end.

(** Two states of the application that differ at most in the storage layer. *)
Definition same_models (E1 E2 : app) : Prop :=
  py E1 = py E2
  /\ constraint_engine E1 = constraint_engine E2
  /\ design_generator E1 = design_generator E2
  /\ evaluator E1 = evaluator E2
  /\ cost_predictor E1 = cost_predictor E2
  /\ design_ranker E1 = design_ranker E2
  /\ design_recommender E1 = design_recommender E2
  /\ data_loader E1 = data_loader E2.

(** The id-to-name table of the recommendation endpoint. *)
Definition archetype_name (id : Z) : option string :=
  if id =? 0 then Some "Eco-Efficient"
  else if id =? 1 then Some "Carbon-Optimized"
  else if id =? 2 then Some "Regenerative"
  else None.

(** ** The constraint engine and the generator as the specification
       describes them *)

Module SpecModel.

Inductive domain : Type :=
| Range (lo hi : Z)
| OneOf (values : list string).

(** The four constraint fields with their domains. *)
Definition schema : list (string * domain) :=
  [ ("area", Range 300 2000);
    ("budget", Range 0 100);
    ("climate", OneOf ["cold"; "moderate"; "hot"]);
    ("priority", OneOf ["energy"; "water"; "materials"]) ].

Definition in_domain (d : domain) (v : pyval) : bool :=
  match d, v with
  | Range lo hi, PInt z => (lo <=? z) && (z <=? hi)
  | OneOf values, PStr s => existsb (String.eqb s) values
  | _, _ => false
  end.

(** A field of the input; an input that is no object has none. *)
Definition field (data : pyval) (name : string) : option pyval :=
  match data with
  | PDict m => m !! name
  | _ => None
  end.


(** The messages one field contributes: none, or one that names it. *)
Definition check_field (data : pyval) (f : string * domain) : list string :=
  match field data f.1 with
  | None => [f.1 +:+ " is required"]
  | Some v => if in_domain f.2 v then [] else [f.1 +:+ " is out of range"]
  end.



(** Modelled from the spec: [ConstraintEngine.validate] of [constraints.py],
    a module that [app.py] imports and whose source is missing.  Section 4.1: every
    field is checked against its domain, a missing or out-of-range field
    yields one message naming it, and all messages are reported together. *)
Definition validate (data : pyval) : result (pyval * pyval) :=
  let errors :=
    foldl (fun errors f => errors ++ check_field data f) [] schema in
  Ok (PBool (Nat.eqb (length errors) 0), PList (PStr <$> errors)).

Definition archetypes : list (Z * string) :=
  [ (0, "Eco-Efficient"); (1, "Carbon-Optimized"); (2, "Regenerative") ].

Definition attribute (constraints : pyval) (name : string) : pyval :=
  match field constraints name with
  | Some v => v
  | None => PNone
  end.

(** Modelled from the spec: [DesignGenerator.generate] of [generator.py],
    a module that [app.py] imports and whose source is missing.  Section 4.2: three
    alternatives, one per archetype, ids 0, 1, 2, attributes reflecting the
    constraints, and nothing but the constraints is read. *)
Definition generate (constraints : pyval) : result pyval :=
  Ok (PList ((fun a : Z * string =>
                PDict {[ "id" := PInt a.1;
                         "name" := PStr a.2;
                         "area" := attribute constraints "area";
                         "budget" := attribute constraints "budget";
                         "climate" := attribute constraints "climate";
                         "priority" := attribute constraints "priority" ]})
               <$> archetypes)).

End SpecModel.

(** ** A concrete application state

    The engine and the generator are the ones above; the other collaborators
    answer with fixed values handed in as arguments, so that each outcome the
    handlers distinguish (a prediction or none, a ranking or a failure, a
    stored project or a storage error) can be run. *)

Module Sample.

Definition metrics : pyval :=
  PDict {[ "energyEfficiency" := PInt 72;
           "waterEfficiency" := PInt 65;
           "carbonFootprint" := PInt 38 ]}.

(** Stand-ins for [round] and [int] on the values the runs below meet:
    scores that are already rounded, and no numeral to parse.  They are not
    CPython's functions; every theorem is stated for any [builtins]. *)
Definition builtins : builtins :=
  {| float_round := fun f _ => f;
     int_of_str := fun _ => Raise (Exn "ValueError" "invalid literal for int()") |}.

Definition engine : ConstraintEngine.t :=
  {| ConstraintEngine.validate := SpecModel.validate;
     ConstraintEngine.process := fun data => Ok data;
     ConstraintEngine.calculate_feasibility := fun _ => Ok (PInt 80) |}.

Definition loader : DataLoader.t :=
  {| DataLoader.auto_load_training_data :=
       Ok (PDict {[ "cost" := PList [];
                    "preference" := PList [];
                    "historical" := PList [] ]});
     DataLoader.prepare_cost_training_data := fun d => Ok d;
     DataLoader.prepare_preference_training_data := fun d => Ok d;
     DataLoader.prepare_historical_training_data := fun d => Ok d;
     DataLoader.generate_synthetic_cost_data := fun _ => Ok (PList []);
     DataLoader.generate_synthetic_preference_data := fun _ => Ok (PList []);
     DataLoader.generate_synthetic_historical_projects := fun _ => Ok (PList []) |}.

Definition state (predicted ranked recommended saved : result pyval) : app :=
  {| py := builtins;
     constraint_engine := engine;
     design_generator := {| DesignGenerator.generate := SpecModel.generate |};
     evaluator :=
       {| SustainabilityEvaluator.evaluate := fun _ _ => Ok metrics;
          SustainabilityEvaluator.rank_designs := fun designs => Ok designs |};
     cost_predictor :=
       {| SimpleCostPredictor.train := fun _ => Ok tt;
          SimpleCostPredictor.predict := fun _ _ _ _ _ => predicted;
          SimpleCostPredictor.get_feature_importance := Ok (PDict ∅) |};
     design_ranker :=
       {| SimpleDesignRanker.train := fun _ => Ok tt;
          SimpleDesignRanker.rank_designs := fun _ _ => ranked |};
     design_recommender :=
       {| SimpleDesignRecommender.learn_from_history := fun _ => Ok tt;
          SimpleDesignRecommender.recommend_design := fun _ _ => recommended |};
     data_loader := loader;
     save_project := fun _ _ _ _ => saved |}.

Definition unavailable : result pyval := Raise (Exn "RuntimeError" "unavailable").

Definition no_recommendation : pyval :=
  PDict {[ "recommended_design" := PNone; "confidence" := PFloat 0%float ]}.

(** Everything works. *)
Definition healthy : app :=
  state (Ok (PInt 150000)) (Ok (PList [])) (Ok no_recommendation) (Ok (PInt 1)).

(** The end-to-end input of section 8 of the specification. *)
Definition constraints : gmap string pyval :=
  {[ "area" := PInt 1200; "budget" := PInt 60;
     "climate" := PStr "hot"; "priority" := PStr "water" ]}.

(** The invalid input of section 8 of the specification: the area is
    below 300. *)
Definition small_area : gmap string pyval :=
  {[ "area" := PInt 50; "budget" := PInt 60;
     "climate" := PStr "hot"; "priority" := PStr "water" ]}.

(** What the generator above returns for [constraints]. *)
Definition designs : list (gmap string pyval) :=
  (fun a : Z * string =>
     ({[ "id" := PInt a.1; "name" := PStr a.2;
         "area" := PInt 1200; "budget" := PInt 60;
         "climate" := PStr "hot"; "priority" := PStr "water" ]}
      : gmap string pyval))
    <$> SpecModel.archetypes.

Definition timestamp : string := "2026-03-01T12:00:00".


(** The data loader raises, so the training block is left early. *)
Definition untrained : app :=
  {| py := builtins;
     constraint_engine := constraint_engine healthy;
     design_generator := design_generator healthy;
     evaluator := evaluator healthy;
     cost_predictor := cost_predictor healthy;
     design_ranker := design_ranker healthy;
     design_recommender := design_recommender healthy;
     data_loader :=
       {| DataLoader.auto_load_training_data :=
            Raise (Exn "FileNotFoundError" "data");
          DataLoader.prepare_cost_training_data := fun d => Ok d;
          DataLoader.prepare_preference_training_data := fun d => Ok d;
          DataLoader.prepare_historical_training_data := fun d => Ok d;
          DataLoader.generate_synthetic_cost_data := fun _ => Ok (PList []);
          DataLoader.generate_synthetic_preference_data := fun _ => Ok (PList []);
          DataLoader.generate_synthetic_historical_projects :=
            fun _ => Ok (PList []) |};
     save_project := save_project healthy |}.

End Sample.

(** ** The remaining routes of [app.py]

    The routes below talk to the database layer and to the file system
    rather than to the design pipeline.  They run in the same kind of monad,
    over the calls of their own collaborators. *)

(** *** String methods

    A string is a sequence of characters with code points below 256. *)

(** [c.isspace()] *)
Definition is_space (a : Ascii.ascii) : bool :=
  let n := Ascii.nat_of_ascii a in
  (Nat.leb 9 n && Nat.leb n 13) || (Nat.leb 28 n && Nat.leb n 32)
  || Nat.eqb n 133 || Nat.eqb n 160.

Fixpoint str_lstrip (s : string) : string :=
  match s with
  | String a rest => if is_space a then str_lstrip rest else s
  | EmptyString => EmptyString
  end.

(** [s.strip()] *)
Definition str_strip (s : string) : string :=
  String.rev (str_lstrip (String.rev (str_lstrip s))).

(** [v.strip()]: only a string has the method. *)
Definition py_strip (v : pyval) : result string :=
  match v with
  | PStr s => Ok (str_strip s)
  | _ => Raise (Exn "AttributeError"
                  ("'" +:+ type_name v +:+ "' object has no attribute 'strip'"))
  end.

Definition lower_char (a : Ascii.ascii) : Ascii.ascii :=
  let n := Ascii.nat_of_ascii a in
  if (Nat.leb 65 n && Nat.leb n 90)
     || (Nat.leb 192 n && Nat.leb n 222 && negb (Nat.eqb n 215))
  then Ascii.ascii_of_nat (n + 32)
  else a.

(** [s.lower()] *)
Fixpoint str_lower (s : string) : string :=
  match s with
  | String a rest => String (lower_char a) (str_lower rest)
  | EmptyString => EmptyString
  end.

(** [needle in s] *)
Fixpoint str_contains (needle s : string) : bool :=
  String.prefix needle s
  || match s with
     | String _ rest => str_contains needle rest
     | EmptyString => false
     end.

Definition is_digit (a : Ascii.ascii) : bool :=
  let n := Ascii.nat_of_ascii a in
  (Nat.leb 48 n && Nat.leb n 57)
  || Nat.eqb n 178 || Nat.eqb n 179 || Nat.eqb n 185.

Fixpoint all_digits (s : string) : bool :=
  match s with
  | String a rest => is_digit a && all_digits rest
  | EmptyString => true
  end.

(** [s.isdigit()]: every character is a digit and there is at least one. *)
Definition str_isdigit (s : string) : bool :=
  negb (String.eqb s "") && all_digits s.

(** *** A monad that records the calls of any collaborator *)

Definition T (Ev A : Type) : Type := list Ev -> result A * list Ev.

Definition t_ret {Ev A} (a : A) : T Ev A := fun t => (Ok a, t).

Definition t_bind {Ev A B} (m : T Ev A) (k : A -> T Ev B) : T Ev B :=
  fun t =>
    match m t with
    | (Ok a, t') => k a t'
    | (Raise e, t') => (Raise e, t')
    end.

Notation "'let*' x ':=' m 'in' k" := (t_bind m (fun x => k))
  (at level 10, x pattern, m at level 100, k at level 200).

Definition t_lift {Ev A} (r : result A) : T Ev A := fun t => (r, t).

Definition t_invoke {Ev A} (c : Ev) (r : result A) : T Ev A :=
  fun t => (r, t ++ [c]).

Definition t_try {Ev A} (body : T Ev A) (handler : exn -> T Ev A) : T Ev A :=
  fun t =>
    match body t with
    | (Ok a, t') => (Ok a, t')
    | (Raise e, t') => handler e t'
    end.

(** *** The database layer: the functions imported from [db] or
        [db_supabase] *)

Module Database.
Record t : Type := {
  (* list_projects(limit, user_id=..., guest=...) *)
  list_projects : Z -> option Z -> bool -> result pyval;
  get_project : Z -> result pyval;
  create_user : string -> string -> string -> result pyval;
  verify_user : string -> string -> result pyval;
  (* clear_projects(user_id=..., guest=...) *)
  clear_projects : pyval -> bool -> result pyval;
}.
End Database.

Inductive db_call : Type :=
| CallListProjects (limit : Z) (user_id : option Z) (guest : bool)
| CallGetProject (project_id : Z)
| CallCreateUser (name email password : string)
| CallVerifyUser (email password : string)
| CallClearProjects (user_id : pyval) (guest : bool).

(** [jsonify(body), status], for a body of any JSON type. *)
Definition reply : Type := pyval * Z.

Definition error_reply (msg : string) (code : Z) : reply :=
  (PDict {[ "error" := PStr msg ]}, code).

(** [GET /api/projects]; [args] are the query parameters. *)
Definition get_projects (B : builtins) (db : Database.t)
    (args : gmap string string) : T db_call reply :=
  t_try
    (let* limit :=
       t_lift (py_int B (match args !! "limit" with
                         | Some s => PStr s
                         | None => PInt 50
                         end)) in
     let user_id := args !! "user_id" in
     let guest :=
       match args !! "guest" with
       | Some s => String.eqb s "1"
       | None => false
       end in
     let* user_id_val :=
       match user_id with
       | Some s =>
           if str_isdigit s
           then let* n := t_lift (py_int B (PStr s)) in t_ret (Some n)
           else t_ret None
       | None => t_ret None
       end in
     let* projects :=
       t_invoke (CallListProjects limit user_id_val guest)
                (Database.list_projects db limit user_id_val guest) in
     t_ret (PDict {[ "projects" := projects ]}, 200))
    (fun e => t_ret (error_reply (str_exn e) 500)).

(** [GET /api/projects/<int:project_id>] *)
Definition get_project_by_id (db : Database.t) (project_id : Z)
    : T db_call reply :=
  t_try
    (let* project :=
       t_invoke (CallGetProject project_id)
                (Database.get_project db project_id) in
     if negb (truthy project) then
       t_ret (error_reply "Project not found" 404)
     else t_ret (project, 200))
    (fun e => t_ret (error_reply (str_exn e) 500)).

(** [POST /api/projects/clear] *)
Definition clear_project_history (db : Database.t) (request_json : pyval)
    : T db_call reply :=
  t_try
    (let data := if truthy request_json then request_json else PDict ∅ in
     let* user_id := t_lift (py_get data "user_id" PNone) in
     let* guest := t_lift (py_get data "guest" PNone) in
     let guest := truthy guest in
     let* deleted :=
       t_invoke (CallClearProjects user_id guest)
                (Database.clear_projects db user_id guest) in
     t_ret (PDict {[ "deleted" := deleted ]}, 200))
    (fun e => t_ret (error_reply (str_exn e) 500)).

(** [data.get(key, '').strip()] *)
Definition stripped_field (data : pyval) (key : string) : result string :=
  let? v := py_get data key (PStr "") in
  py_strip v.

Definition is_empty (s : string) : bool := String.eqb s "".

(** [POST /api/auth/signup] *)
Definition signup (db : Database.t) (request_json : pyval) : T db_call reply :=
  t_try
    (let data := request_json in
     let* name := t_lift (stripped_field data "name") in
     let* email := t_lift (stripped_field data "email") in
     let* password := t_lift (stripped_field data "password") in
     if is_empty name || is_empty email || is_empty password then
       t_ret (error_reply "Name, email, and password are required" 400)
     else
       t_try
         (let* user :=
            t_invoke (CallCreateUser name email password)
                     (Database.create_user db name email password) in
          t_ret (PDict {[ "user" := user ]}, 201))
         (fun e =>
            if str_contains "duplicate" (str_lower (str_exn e))
               || str_contains "unique" (str_lower (str_exn e))
            then t_ret (error_reply "Email already exists" 409)
            else t_ret (error_reply (str_exn e) 500)))
    (fun e => t_ret (error_reply (str_exn e) 500)).

(** [POST /api/auth/login] *)
Definition login (db : Database.t) (request_json : pyval) : T db_call reply :=
  t_try
    (let data := request_json in
     let* email := t_lift (stripped_field data "email") in
     let* password := t_lift (stripped_field data "password") in
     if is_empty email || is_empty password then
       t_ret (error_reply "Email and password are required" 400)
     else
       let* user :=
         t_invoke (CallVerifyUser email password)
                  (Database.verify_user db email password) in
       if negb (truthy user) then
         t_ret (error_reply "Invalid credentials" 401)
       else t_ret (PDict {[ "user" := user ]}, 200))
    (fun e => t_ret (error_reply (str_exn e) 500)).

(** [POST /api/designs/<design_id>/evaluate] *)
Definition evaluate_design (E : app) (now design_id : string)
    (request_json : pyval) : M response :=
  try_except
    (let data := request_json in
     let! design := lift (py_get data "design" PNone) in
     let! constraints := lift (py_get data "constraints" PNone) in
     if negb (truthy design) || negb (truthy constraints) then
       ret (jsonify {[ "error" := PStr "Missing design or constraints" ]}, 400)
     else
       let! metrics :=
         invoke (CallEvaluate design constraints)
                (SustainabilityEvaluator.evaluate (evaluator E)
                   design constraints) in
       ret (jsonify {[ "design_id" := PStr design_id;
                       "metrics" := metrics;
                       "evaluation_timestamp" := PStr now ]}, 200))
    (fun e => ret (jsonify {[ "error" := PStr (str_exn e) ]}, 500)).

(** *** Serving the frontend: lines 95-124 *)

(** What [os.path.exists] and [os.path.isfile] answer. *)
Record filesystem : Type := {
  path_exists : string -> bool;
  path_isfile : string -> bool;
}.

Definition ends_with_slash (s : string) : bool :=
  String.prefix "/" (String.rev s).

(** [os.path.join(a, b)] on a POSIX system. *)
Definition path_join (a b : string) : string :=
  if String.prefix "/" b then b
  else if is_empty a || ends_with_slash a then a +:+ b
  else a +:+ "/" +:+ b.

Inductive served : Type :=
| SendFile (path : string)
| Body (body : gmap string pyval) (code : Z).

(** [GET /] *)
Definition serve_frontend_index (fs : filesystem)
    (absolute_frontend_path : string) : served :=
  let index_path := path_join absolute_frontend_path "index.html" in
  if path_exists fs index_path then SendFile index_path
  else Body {[ "status" := PStr "API active";
               "message" := PStr "Frontend not built" ]} 200.

(** [GET /<path:path>] *)
Definition serve_frontend_routes (fs : filesystem)
    (absolute_frontend_path path : string) : served :=
  if String.prefix "api/" path then
    Body {[ "error" := PStr "Endpoint not found" ]} 404
  else
    let static_file_path := path_join absolute_frontend_path path in
    if path_exists fs static_file_path && path_isfile fs static_file_path then
      SendFile static_file_path
    else
      let index_path := path_join absolute_frontend_path "index.html" in
      if path_exists fs index_path then SendFile index_path
      else Body {[ "error" := PStr "Not found" ]} 404.

(** *** The choice of database layer: lines 27-55 *)

Inductive backend : Type := Supabase | SQLite.

(** The [try] block of lines 29-44: the import of [test_connection], its
    answer, and the import of the Supabase functions. *)
Definition try_supabase (import_test_connection : result unit)
    (test_connection : result pyval) (import_functions : result unit)
    : result unit :=
  let? _ := import_test_connection in
  let? connected := test_connection in
  if truthy connected then
    let? _ := import_functions in
    Ok tt
  else Raise (Exn "ConnectionError" "Supabase test connection failed").

(** The layer whose functions are bound once lines 27-55 have run, and the
    flag [use_supabase]. *)
Definition select_database (import_test_connection : result unit)
    (test_connection : result pyval) (import_functions : result unit)
    : backend * bool :=
  match try_supabase import_test_connection test_connection import_functions with
  | Ok _ => (Supabase, true)
  | Raise _ => (SQLite, false)
  end.

(** *** Vocabulary for statements about request fields *)

Fixpoint all_space (s : string) : bool :=
  match s with
  | String a rest => is_space a && all_space rest
  | EmptyString => true
  end.

(** The field is a string or is missing, so that [.strip()] applies. *)
Definition text_field (m : gmap string pyval) (key : string) : Prop :=
  match m !! key with
  | None | Some (PStr _) => True
  | Some _ => False
  end.

(** The field is missing, empty or made of whitespace only. *)
Definition blank_field (m : gmap string pyval) (key : string) : Prop :=
  match m !! key with
  | None => True
  | Some (PStr s) => all_space s = true
  | Some _ => False
  end.

(** [request.args.get('guest') == '1'] *)
Definition guest_flag (args : gmap string string) : bool :=
  match args !! "guest" with
  | Some s => String.eqb s "1"
  | None => false
  end.

(** *** A concrete database layer

    An in-memory stand-in with one registered user, used to run the routes
    above on concrete requests. *)

Module SampleDb.

Definition user : pyval :=
  PDict {[ "id" := PInt 1; "name" := PStr "Ada";
           "email" := PStr "ada@example.org" ]}.

Definition db : Database.t :=
  {| Database.list_projects := fun _ _ _ => Ok (PList []);
     Database.get_project := fun _ => Ok PNone;
     Database.create_user :=
       fun _ email _ =>
         if String.eqb email "ada@example.org"
         then Raise (Exn "IntegrityError"
                       "UNIQUE constraint failed: users.email")
         else Ok user;
     Database.verify_user :=
       fun email password =>
         if String.eqb email "ada@example.org" && String.eqb password "s3cret"
         then Ok user
         else Ok PNone;
     Database.clear_projects := fun _ _ => Ok (PInt 0) |}.

End SampleDb.

(** *** Vocabulary for statements about the call record *)

Definition is_save (c : call) : bool :=
  match c with
  | CallSaveProject _ _ _ _ => true
  | _ => false
  end.


(** One row of the ML ranking for a pair of a design dict and a float score. *)
Definition row_of (B : builtins) (p : gmap string pyval * float) : pyval :=
  PDict {[ "id" := match p.1 !! "id" with Some v => v | None => PNone end;
           "ml_score" := PFloat (float_round B p.2 2) ]}.

Definition ranked_pair (p : gmap string pyval * float) : pyval :=
  PTuple [PDict p.1; PFloat p.2].

(** ** The evaluation loop on a store of objects

    Lines 259-277 update each design dict in place and append that same
    object to [evaluated_designs].  [evaluate_one] threads the updated dict
    instead, which gives the same list exactly when no object is reached
    twice.  The definitions below keep the identity of every object: a
    design of the generated list and the request body are references into
    a store, and an update changes the store.  *)

(** The generated dicts are pairwise different and none of them is the
    request body.  Two positions that held one and the same object would
    hold equal dicts, so this excludes an object that is reached twice.
    What a dict holds under its keys is a value: the collaborators are
    functions of their arguments, which neither change a dict they are
    given nor keep a reference to it. *)
Definition unshared (constraints : pyval) (designs : list (gmap string pyval))
    : Prop :=
  NoDup designs /\ constraints ∉ (PDict <$> designs).

(** The current value of an object. *)
Definition deref (h : gmap nat pyval) (ref : nat) : pyval :=
  match h !! ref with
  | Some v => v
  | None => PNone
  end.

(** Lines 262-275 on the store. *)
Definition add_predicted_cost_in_place (E : app) (constraints : nat) (idx : Z)
    (design : nat) (h : gmap nat pyval) : M (gmap nat pyval) :=
  if ml_models_ready E then
    try_except
      (let! area := lift (py_getitem (deref h constraints) "area") in
       let! budget := lift (py_getitem (deref h constraints) "budget") in
       let! climate := lift (py_getitem (deref h constraints) "climate") in
       let! priority := lift (py_getitem (deref h constraints) "priority") in
       let! predicted_cost :=
         invoke (CallPredict area budget climate priority (PInt idx))
                (SimpleCostPredictor.predict (cost_predictor E)
                   area budget climate priority (PInt idx)) in
       if truthy predicted_cost then
         let! updated :=
           lift (py_setitem (deref h design) "ml_predicted_cost"
                   predicted_cost) in
         ret (<[design := updated]> h)
       else ret h)
      (fun _ => ret h)
  else ret h.

(** Lines 259-277 on the store: one turn of the loop. *)
Definition evaluate_one_in_place (E : app) (constraints : nat) (idx : Z)
    (design : nat) (h : gmap nat pyval) : M (gmap nat pyval) :=
  let! metrics :=
    invoke (CallEvaluate (deref h design) (deref h constraints))
           (SustainabilityEvaluator.evaluate (evaluator E)
              (deref h design) (deref h constraints)) in
  let! updated := lift (py_setitem (deref h design) "metrics" metrics) in
  add_predicted_cost_in_place E constraints idx design (<[design := updated]> h).

(** The whole loop; [evaluated_designs] is then the list [designs] itself,
    read in the final store. *)
Fixpoint evaluate_all_in_place (E : app) (constraints : nat) (idx : Z)
    (designs : list nat) (h : gmap nat pyval) : M (gmap nat pyval) :=
  match designs with
  | [] => ret h
  | design :: rest =>
      let! h := evaluate_one_in_place E constraints idx design h in
      evaluate_all_in_place E constraints (idx + 1) rest h
  end.

(** A run in which one dict is handed out three times: the predictor has a
    figure for the last index only. *)
Module Shared.

Definition state : app :=
  {| py := py Sample.healthy;
     constraint_engine := constraint_engine Sample.healthy;
     design_generator := design_generator Sample.healthy;
     evaluator := evaluator Sample.healthy;
     cost_predictor :=
       {| SimpleCostPredictor.train := fun _ => Ok tt;
          SimpleCostPredictor.predict :=
            fun _ _ _ _ idx =>
              match idx with
              | PInt 2 => Ok (PInt 150000)
              | _ => Ok PNone
              end;
          SimpleCostPredictor.get_feature_importance := Ok (PDict ∅) |};
     design_ranker := design_ranker Sample.healthy;
     design_recommender := design_recommender Sample.healthy;
     data_loader := data_loader Sample.healthy;
     save_project := save_project Sample.healthy |}.

Definition design : gmap string pyval :=
  {[ "id" := PInt 0; "name" := PStr "Eco-Efficient" ]}.

(** Object 0 is the request body, object 1 the one design. *)
Definition store : gmap nat pyval :=
  {[ 0%nat := PDict Sample.constraints; 1%nat := PDict design ]}.

Definition with_cost : pyval :=
  PDict (<["ml_predicted_cost" := PInt 150000]>
           (<["metrics" := Sample.metrics]> design)).

Definition without_cost : pyval :=
  PDict (<["metrics" := Sample.metrics]> design).

End Shared.

(** * Properties *)

(** ** Running the monad *)

Section running.
Context {A B : Type}.

Lemma bind_ok (m : M A) (k : A -> M B) t a t' :
  m t = (Ok a, t') -> bind m k t = k a t'.
Proof. intros Hm. unfold bind. now rewrite Hm. Qed.

Lemma bind_raise (m : M A) (k : A -> M B) t e t' :
  m t = (Raise e, t') -> bind m k t = (Raise e, t').
Proof. intros Hm. unfold bind. now rewrite Hm. Qed.

Lemma try_except_ok (body : M A) (handler : exn -> M A) t a t' :
  body t = (Ok a, t') -> try_except body handler t = (Ok a, t').
Proof. intros Hb. unfold try_except. now rewrite Hb. Qed.

Lemma try_except_raise (body : M A) (handler : exn -> M A) t e t' :
  body t = (Raise e, t') -> try_except body handler t = handler e t'.
Proof. intros Hb. unfold try_except. now rewrite Hb. Qed.

End running.

(** Unfolds the monad's operations so that a run can be followed by case
    analysis on the collaborators' answers. *)
Ltac run_monad :=
  unfold try_except, bind, lift, invoke, ret, rbind in *; simpl in *.

(** ** Start-up *)

Lemma ml_models_ready_true (E : app) : ml_models_ready E = true.
Proof. unfold ml_models_ready. now destruct (train_models E). Qed.

Lemma same_models_ready (E1 E2 : app) :
  same_models E1 E2 -> ml_models_ready E1 = ml_models_ready E2.
Proof. intros _. now rewrite !ml_models_ready_true. Qed.

(** ** The evaluation loop *)








(** ** The optional enhancements and persistence never raise *)

Lemma ml_rank_run (E : app) (designs c : pyval) (t : list call) :
  ml_rank E designs c t
  = (Ok (ml_rankings_of E designs c), t ++ [CallMLRank designs c]).
Proof.
  unfold ml_rank, ml_rankings_of. rewrite ml_models_ready_true. run_monad.
  destruct (SimpleDesignRanker.rank_designs _ _ _) as [ranked|]; simpl; [|done].
  destruct (py_iter ranked) as [items|]; simpl; [|done].
  now destruct (rmap (ranking_row E) items).
Qed.

Lemma ml_recommend_run (E : app) (c : pyval) (t : list call) :
  ml_recommend E c t
  = (Ok (recommendations_of E c), t ++ [CallRecommend c None]).
Proof.
  unfold ml_recommend, recommendations_of. rewrite ml_models_ready_true.
  run_monad.
  now destruct (SimpleDesignRecommender.recommend_design _ _ _).
Qed.

Lemma persist_run (E : app) (c evaluated rk rc uid : pyval)
    (resp : gmap string pyval) (t : list call) :
  let ml := PDict {[ "ml_rankings" := rk; "recommendations" := rc ]} in
  persist E c evaluated rk rc uid resp t
  = (Ok (match save_project E c evaluated ml uid with
         | Ok project_id => <["project_id" := project_id]> resp
         | Raise _ => resp
         end),
     t ++ [CallSaveProject c evaluated ml uid]).
Proof.
  intros ml. unfold persist. fold ml. run_monad.
  now destruct (save_project E c evaluated ml uid).
Qed.

(** ** The generation endpoint on a request that gets through *)

Section generation.
Variable E : app.
Variable now : string.
Variable c : pyval.
Variables (uid valid errors generated : pyval).
Variable ds : list (gmap string pyval).
Variable ms : list pyval.

Hypothesis user_id_read : py_get c "user_id" PNone = Ok uid.
Hypothesis validated :
  ConstraintEngine.validate (constraint_engine E) c = Ok (valid, errors).
Hypothesis is_valid : truthy valid = true.
Hypothesis designs_generated :
  DesignGenerator.generate (design_generator E) c = Ok generated.
Hypothesis designs_are_dicts : py_iter generated = Ok (PDict <$> ds).
Hypothesis designs_evaluated :
  Forall2 (fun d m =>
             SustainabilityEvaluator.evaluate (evaluator E) (PDict d) c = Ok m)
          ds ms.






End generation.

(** ** What evaluation keeps of the generated designs *)






(** ** A missing cost prediction *)







(** ** A failing ranker or recommender *)







(** ** Two application states with the same models *)

Section same.
Variables E1 E2 : app.
Hypothesis same : same_models E1 E2.






End same.





(** ** Validation *)






(** ** The invalid input of the specification *)

Lemma validate_small_area :
  SpecModel.validate (PDict Sample.small_area)
  = Ok (PBool false, PList [PStr "area is out of range"]).
Proof. vm_compute. reflexivity. Qed.

(** C6.  With the constraint engine of the specification, the input
    [{area: 50, budget: 60, climate: "hot", priority: "water"}] fails
    validation with a single error, which names [area]; the generation
    endpoint answers it with 400 after calling the engine only, so the
    generator is not invoked. *)
Theorem small_area_rejected_before_generation (E : app) (now : string) :
  (forall d, ConstraintEngine.validate (constraint_engine E) d
             = SpecModel.validate d) ->
  (exists msg,
      validate_constraints E (PDict Sample.small_area) []
      = (Ok ({[ "valid" := PBool false; "errors" := PList [PStr msg] ]}, 400),
         [CallValidate (PDict Sample.small_area)])
      /\ exists rest, msg = "area" +:+ rest)
  /\ exists t',
       generate_designs E now (PDict Sample.small_area) []
       = (Ok ({[ "error" := PStr "Invalid constraints" ]}, 400), t')
       /\ t' = [CallValidate (PDict Sample.small_area)]
       /\ Forall (fun ev => forall x, ev <> CallGenerate x) t'.
Proof.
  intros Hvalidate. split.
  - exists "area is out of range". split; [|now exists " is out of range"].
    unfold validate_constraints. apply try_except_ok.
    unfold invoke at 1. unfold bind at 1.
    rewrite Hvalidate, validate_small_area. reflexivity.
  - exists [CallValidate (PDict Sample.small_area)]. split; [|split].
    + unfold generate_designs. apply try_except_ok.
      assert (py_get (PDict Sample.small_area) "user_id" PNone = Ok PNone)
        as Huid by (vm_compute; reflexivity).
      unfold lift at 1. unfold bind at 1. rewrite Huid.
      unfold invoke at 1. unfold bind at 1.
      rewrite Hvalidate, validate_small_area. reflexivity.
    + reflexivity.
    + constructor; [|constructor]. intros x. discriminate.
Qed.

Lemma small_area_witness :
  (exists msg,
      validate_constraints Sample.healthy (PDict Sample.small_area) []
      = (Ok ({[ "valid" := PBool false; "errors" := PList [PStr msg] ]}, 400),
         [CallValidate (PDict Sample.small_area)])
      /\ exists rest, msg = "area" +:+ rest)
  /\ exists t',
       generate_designs Sample.healthy Sample.timestamp
         (PDict Sample.small_area) []
       = (Ok ({[ "error" := PStr "Invalid constraints" ]}, 400), t')
       /\ t' = [CallValidate (PDict Sample.small_area)]
       /\ Forall (fun ev => forall x, ev <> CallGenerate x) t'.
Proof.
  apply (small_area_rejected_before_generation Sample.healthy Sample.timestamp).
  intros d. reflexivity.
Defined.

(** ** The recommendation endpoint *)

Lemma design_names_agree (i : Z) :
  0 <= i <= 2 ->
  exists s, archetype_name i = Some s
            /\ py_list_index design_names (PInt i) = Ok (PStr s).
Proof.
  intros Hi.
  assert (i = 0 \/ i = 1 \/ i = 2) as [-> | [-> | ->]] by lia;
    eexists; split; reflexivity.
Qed.

(** C8.  When the recommender returns a dict whose [recommended_design] is
    [None] or one of 0, 1, 2 and whose [confidence] is a number, the
    recommendation endpoint answers 200 with [recommended_design_id] set to
    that id, [confidence] set to the rounded confidence, and
    [recommended_design] set to the name the table
    0: Eco-Efficient, 1: Carbon-Optimized, 2: Regenerative gives the id;
    for a [None] id both the name and the id are [None], still with 200. *)
Theorem get_recommendations_maps_id_to_name
    (E : app) (c : pyval) (r : gmap string pyval) (rid conf rounded : pyval)
    (t : list call) :
  SimpleDesignRecommender.recommend_design (design_recommender E) c (Some 3)
  = Ok (PDict r) ->
  r !! "recommended_design" = Some rid ->
  r !! "confidence" = Some conf ->
  py_round (py E) conf 3 = Ok rounded ->
  rid = PNone \/ (exists i, rid = PInt i /\ 0 <= i <= 2) ->
  exists (body : gmap string pyval),
    get_recommendations E c t
    = (Ok (body, 200), t ++ [CallRecommend c (Some 3)])
    /\ body !! "recommended_design_id" = Some rid
    /\ body !! "confidence" = Some rounded
    /\ body !! "recommended_design"
       = Some (match rid with
               | PInt i => match archetype_name i with
                           | Some s => PStr s
                           | None => PNone
                           end
               | _ => PNone
               end).
Proof.
  intros Hrec Hrid Hconf Hround Hdomain.
  assert (py_getitem (PDict r) "recommended_design" = Ok rid) as Hget
    by (simpl; now rewrite Hrid).
  assert (py_getitem (PDict r) "confidence" = Ok conf) as Hgetc
    by (simpl; now rewrite Hconf).
  assert (exists name,
            (if negb (is_none rid)
             then let! rd := lift (py_getitem (PDict r) "recommended_design") in
                  lift (py_list_index design_names rd)
             else ret PNone) (t ++ [CallRecommend c (Some 3)])
            = (Ok name, t ++ [CallRecommend c (Some 3)])
            /\ name = match rid with
                      | PInt i => match archetype_name i with
                                  | Some s => PStr s
                                  | None => PNone
                                  end
                      | _ => PNone
                      end) as (name & Hname & Hname_eq).
  { destruct Hdomain as [-> | (i & -> & Hi)].
    - exists PNone. split; reflexivity.
    - destruct (design_names_agree i Hi) as (s & Hs & Hindex).
      exists (PStr s). simpl negb. cbv iota. split.
      + unfold lift at 1. unfold bind. rewrite Hget. unfold lift.
        now rewrite Hindex.
      + now rewrite Hs. }
  exists ({[ "recommended_design" := name;
             "recommended_design_id" := rid;
             "confidence" := rounded;
             "model" := PStr "HistoricalSimilarity" ]}).
  split; [|split; [|split]].
  - unfold get_recommendations. rewrite ml_models_ready_true. simpl negb.
    cbv iota. apply try_except_ok.
    unfold invoke at 1. unfold bind at 1. rewrite Hrec.
    unfold lift at 1. unfold bind at 1. rewrite Hget.
    rewrite Hget in Hname. rewrite (bind_ok _ _ _ _ _ Hname).
    unfold lift at 1. unfold bind at 1.
    unfold lift at 1. unfold bind at 1. rewrite Hgetc.
    unfold lift at 1. unfold bind at 1. rewrite Hround.
    reflexivity.
  - rewrite lookup_insert_ne by discriminate. apply lookup_insert_eq.
  - rewrite !lookup_insert_ne by discriminate. apply lookup_insert_eq.
  - rewrite lookup_insert_eq. now rewrite Hname_eq.
Qed.

Lemma get_recommendations_witness :
  exists (body : gmap string pyval),
    get_recommendations
      (Sample.state (Ok PNone) Sample.unavailable
         (Ok (PDict {[ "recommended_design" := PInt 2;
                       "confidence" := PInt 1 ]}))
         Sample.unavailable)
      (PDict Sample.constraints) []
    = (Ok (body, 200), [] ++ [CallRecommend (PDict Sample.constraints) (Some 3)])
    /\ body !! "recommended_design_id" = Some (PInt 2)
    /\ body !! "confidence" = Some (PInt 1)
    /\ body !! "recommended_design"
       = Some (match archetype_name 2 with
               | Some s => PStr s
               | None => PNone
               end).
Proof.
  apply (get_recommendations_maps_id_to_name
           (Sample.state (Ok PNone) Sample.unavailable
              (Ok (PDict {[ "recommended_design" := PInt 2;
                            "confidence" := PInt 1 ]}))
              Sample.unavailable)
           (PDict Sample.constraints)
           {[ "recommended_design" := PInt 2; "confidence" := PInt 1 ]}
           (PInt 2) (PInt 1) (PInt 1) []).
  - reflexivity.
  - vm_compute. reflexivity.
  - vm_compute. reflexivity.
  - reflexivity.
  - right. exists 2. split; [reflexivity|lia].
Defined.

(** ** The readiness flag *)

Lemma predict_cost_answers (E : app) (req : pyval) (t : list call) :
  exists (body : gmap string pyval) (code : Z) t',
    predict_cost E req t = (Ok (body, code), t')
    /\ (code = 200 \/ code = 500).
Proof.
  unfold predict_cost. rewrite ml_models_ready_true. simpl negb. cbv iota.
  run_monad.
  repeat match goal with
         | |- context [match ?x with Ok _ => _ | Raise _ => _ end] =>
             destruct x; simpl
         | |- context [if ?b then _ else _] => destruct b; simpl
         end; eauto 6.
Qed.

Lemma get_recommendations_answers (E : app) (req : pyval) (t : list call) :
  exists (body : gmap string pyval) (code : Z) t',
    get_recommendations E req t = (Ok (body, code), t')
    /\ (code = 200 \/ code = 500).
Proof.
  unfold get_recommendations. rewrite ml_models_ready_true. simpl negb.
  cbv iota. run_monad.
  repeat match goal with
         | |- context [match ?x with Ok _ => _ | Raise _ => _ end] =>
             destruct x; simpl
         | |- context [if ?b then _ else _] => destruct b; simpl
         end; eauto 6.
Qed.

(** A start-up whose training block raises, and the flag after it. *)
Lemma ready_after_failed_training :
  train_models Sample.untrained = Raise (Exn "FileNotFoundError" "data")
  /\ ml_models_ready Sample.untrained = true.
Proof. split; reflexivity. Qed.

(** C9.  Whatever the training block does, including raising, the flag
    [ml_models_ready] is true once start-up is over.  Hence the
    cost-prediction and the recommendation endpoint never answer 503 (every
    answer is a 200 or a 500), and the health endpoint reports [ml_enabled]
    as true. *)
Theorem ml_models_ready_unconditionally (E : app) :
  ml_models_ready E = true
  /\ (forall (req : pyval) (t : list call),
        exists (body : gmap string pyval) (code : Z) t',
          predict_cost E req t = (Ok (body, code), t') /\ code <> 503)
  /\ (forall (req : pyval) (t : list call),
        exists (body : gmap string pyval) (code : Z) t',
          get_recommendations E req t = (Ok (body, code), t') /\ code <> 503)
  /\ (forall (now : string) (t : list call),
        exists (body : gmap string pyval),
          health E now t = (Ok (body, 200), t)
          /\ body !! "ml_enabled" = Some (PBool true)).
Proof.
  split; [apply ml_models_ready_true|]. split; [|split].
  - intros req t.
    destruct (predict_cost_answers E req t) as (body & code & t' & Hrun & Hcode).
    exists body, code, t'. split; [exact Hrun|]. lia.
  - intros req t.
    destruct (get_recommendations_answers E req t)
      as (body & code & t' & Hrun & Hcode).
    exists body, code, t'. split; [exact Hrun|]. lia.
  - intros now t. unfold health. rewrite ml_models_ready_true.
    eexists. split; [reflexivity|]. unfold jsonify.
    rewrite !lookup_insert_ne by discriminate. apply lookup_insert_eq.
Qed.

(** * Further properties of the handlers *)

(** ** Every outcome of the generation endpoint *)

Lemma add_predicted_cost_trace (E : app) (c : pyval) (idx : Z)
    (d : gmap string pyval) (t : list call) :
  exists new,
    add_predicted_cost E c idx (PDict d) t
    = (Ok (PDict (match predicted_cost_for E c idx with
                  | Some cost => <["ml_predicted_cost" := cost]> d
                  | None => d
                  end)), t ++ new)
    /\ Forall (fun ev => is_save ev = false) new.
Proof.
  unfold add_predicted_cost, predicted_cost_for.
  rewrite ml_models_ready_true. run_monad.
  destruct (py_getitem c "area") as [area|]; simpl;
    [|exists []; now rewrite app_nil_r].
  destruct (py_getitem c "budget") as [budget|]; simpl;
    [|exists []; now rewrite app_nil_r].
  destruct (py_getitem c "climate") as [climate|]; simpl;
    [|exists []; now rewrite app_nil_r].
  destruct (py_getitem c "priority") as [priority|]; simpl;
    [|exists []; now rewrite app_nil_r].
  eexists [_].
  destruct (SimpleCostPredictor.predict _ _ _ _ _ _) as [v|]; simpl;
    [destruct (truthy v); simpl|]; (split; [reflexivity|now repeat constructor]).
Qed.

Lemma evaluate_one_cases (E : app) (c : pyval) (idx : Z) (design : pyval)
    (t : list call) :
  exists new,
    Forall (fun ev => is_save ev = false) new
    /\ ((exists e, evaluate_one E c idx design t = (Raise e, t ++ new))
        \/ (exists d m,
              design = PDict d
              /\ SustainabilityEvaluator.evaluate (evaluator E) (PDict d) c = Ok m
              /\ evaluate_one E c idx design t
                 = (Ok (PDict (evaluated_design E c idx d m)), t ++ new))).
Proof.
  unfold evaluate_one.
  destruct (SustainabilityEvaluator.evaluate (evaluator E) design c)
    as [m|e] eqn:Hm.
  - destruct (py_setitem design "metrics" m) as [d'|e] eqn:Hset.
    2:{ exists [CallEvaluate design c]. split; [now repeat constructor|].
        left. exists e. unfold bind, invoke, lift. now rewrite Hset. }
    destruct design as [|b|z|f|s|l|l|d]; try discriminate. clear Hset d'.
    destruct (add_predicted_cost_trace E c idx (<["metrics" := m]> d)
                (t ++ [CallEvaluate (PDict d) c])) as (new & Hrun & Hnew).
    exists (CallEvaluate (PDict d) c :: new). split; [now constructor|].
    right. exists d, m. split; [reflexivity|]. split; [exact Hm|].
    unfold bind at 1. unfold invoke.
    unfold bind, lift. simpl. rewrite Hrun.
    unfold evaluated_design. now rewrite <- app_assoc.
  - exists [CallEvaluate design c]. split; [now repeat constructor|].
    left. exists e. reflexivity.
Qed.

Lemma evaluate_all_cases (E : app) (c : pyval) (designs : list pyval) :
  forall (idx : Z) (t : list call),
    exists new,
      Forall (fun ev => is_save ev = false) new
      /\ ((exists e, evaluate_all E c idx designs t = (Raise e, t ++ new))
          \/ (exists ds ms,
                designs = PDict <$> ds
                /\ Forall2 (fun d m =>
                              SustainabilityEvaluator.evaluate (evaluator E)
                                (PDict d) c = Ok m) ds ms
                /\ evaluate_all E c idx designs t
                   = (Ok (PDict <$> evaluated_from E c idx ds ms), t ++ new))).
Proof.
  induction designs as [|design designs IH]; intros idx t.
  - exists []. split; [constructor|]. right. exists [], [].
    rewrite app_nil_r. repeat split. constructor.
  - destruct (evaluate_one_cases E c idx design t)
      as (new1 & Hnew1 & [[e He] | (d & m & -> & Hm & Hrun)]).
    + exists new1. split; [exact Hnew1|]. left. exists e.
      simpl. now rewrite (bind_raise _ _ _ _ _ He).
    + destruct (IH (idx + 1) (t ++ new1))
        as (new2 & Hnew2 & [[e He] | (ds & ms & -> & Hall & Hrest)]).
      * exists (new1 ++ new2). split; [now apply Forall_app|]. left. exists e.
        simpl. rewrite (bind_ok _ _ _ _ _ Hrun), (bind_raise _ _ _ _ _ He).
        now rewrite app_assoc.
      * exists (new1 ++ new2). split; [now apply Forall_app|]. right.
        exists (d :: ds), (m :: ms). split; [reflexivity|].
        split; [now constructor|].
        simpl. rewrite (bind_ok _ _ _ _ _ Hrun), (bind_ok _ _ _ _ _ Hrest).
        now rewrite app_assoc.
Qed.

(** The three ways a generation request ends, with the calls it made. *)
Lemma generate_designs_cases (E : app) (now : string) (c : pyval)
    (t : list call) :
  exists (body : gmap string pyval) (code : Z) (new : list call),
    generate_designs E now c t = (Ok (body, code), t ++ new)
    /\ ((code = 500 /\ (exists msg, body = {[ "error" := PStr msg ]})
         /\ Forall (fun ev => is_save ev = false) new)
        \/ (code = 400 /\ body = {[ "error" := PStr "Invalid constraints" ]}
            /\ new = [CallValidate c])
        \/ (code = 200
            /\ exists uid ds ms pre a b ml,
                 body = success_body E now c uid ds ms
                 /\ Forall2 (fun d m =>
                               SustainabilityEvaluator.evaluate (evaluator E)
                                 (PDict d) c = Ok m) ds ms
                 /\ new = pre ++ [CallSaveProject a b ml uid]
                 /\ Forall (fun ev => is_save ev = false) pre)).
Proof.
  unfold generate_designs, try_except.
  unfold lift at 1. unfold bind at 1.
  destruct (py_get c "user_id" PNone) as [uid|e] eqn:Huid.
  2:{ exists {[ "error" := PStr (str_exn e) ]}, 500, [].
      rewrite app_nil_r. split; [reflexivity|]. left. eauto. }
  unfold invoke at 1. unfold bind at 1.
  destruct (ConstraintEngine.validate (constraint_engine E) c)
    as [[valid errors]|e] eqn:Hvalidate.
  2:{ exists {[ "error" := PStr (str_exn e) ]}, 500, [CallValidate c].
      split; [reflexivity|]. left. repeat split; eauto; now repeat constructor. }
  destruct (truthy valid) eqn:Hvalid; cbn [negb].
  2:{ exists {[ "error" := PStr "Invalid constraints" ]}, 400, [CallValidate c].
      split; [reflexivity|]. right. left. now repeat split. }
  unfold invoke at 1. unfold bind at 1.
  destruct (DesignGenerator.generate (design_generator E) c)
    as [generated|e] eqn:Hgen.
  2:{ exists {[ "error" := PStr (str_exn e) ]}, 500,
             [CallValidate c; CallGenerate c].
      split; [now rewrite <- app_assoc|]. left. repeat split; eauto; now repeat constructor. }
  unfold lift at 1. unfold bind at 1.
  destruct (py_iter generated) as [designs|e] eqn:Hiter.
  2:{ exists {[ "error" := PStr (str_exn e) ]}, 500,
             [CallValidate c; CallGenerate c].
      split; [now rewrite <- app_assoc|]. left. repeat split; eauto; now repeat constructor. }
  destruct (evaluate_all_cases E c designs 0
              ((t ++ [CallValidate c]) ++ [CallGenerate c]))
    as (new & Hnew & [[e He] | (ds & ms & -> & Hall & Hloop)]).
  - exists {[ "error" := PStr (str_exn e) ]}, 500,
           ([CallValidate c; CallGenerate c] ++ new).
    split.
    + rewrite (bind_raise _ _ _ _ _ He). unfold ret, jsonify.
      now rewrite <- !app_assoc.
    + left. repeat split; eauto. apply Forall_app. split; [|exact Hnew].
      now repeat constructor.
  - rewrite (bind_ok _ _ _ _ _ Hloop).
    unfold bind at 1. rewrite ml_rank_run.
    unfold bind at 1. rewrite ml_recommend_run.
    unfold bind at 1. rewrite persist_run.
    rewrite ml_models_ready_true. unfold ret, jsonify.
    eexists _, 200, _. split.
    + rewrite <- !app_assoc. reflexivity.
    + right. right. split; [reflexivity|].
      eexists uid, ds, ms, _, _, _, _. split.
      { unfold success_body, computed_body. reflexivity. }
      split; [exact Hall|]. split.
      * rewrite !app_assoc. reflexivity.
      * repeat (apply Forall_app; split); try exact Hnew;
          now repeat constructor.
Qed.

(** X1.  The generation endpoint lets no exception escape: every request is
    answered with status 200, 400 or 500.  [save_project] is called exactly
    once, as the last call, when the answer is 200, and not at all when it
    is 400 or 500. *)
Theorem generate_designs_persists_only_on_success
    (E : app) (now : string) (c : pyval) (t : list call) :
  exists (body : gmap string pyval) (code : Z) (new : list call),
    generate_designs E now c t = (Ok (body, code), t ++ new)
    /\ (code = 200 \/ code = 400 \/ code = 500)
    /\ (code <> 200 -> Forall (fun ev => is_save ev = false) new)
    /\ (code = 200 ->
        exists pre a b ml uid,
          new = pre ++ [CallSaveProject a b ml uid]
          /\ Forall (fun ev => is_save ev = false) pre).
Proof.
  destruct (generate_designs_cases E now c t)
    as (body & code & new & Hrun
        & [(-> & _ & Hnew) | [(-> & _ & ->) | (-> & Hok)]]);
    eexists _, _, _; (split; [exact Hrun|]).
  - split; [lia|]. split; [now intros _|]. intros; lia.
  - split; [lia|]. split; [|intros; lia].
    intros _. now repeat constructor.
  - split; [lia|]. split; [intros; lia|]. intros _.
    destruct Hok as (uid & ds & ms & pre & a & b & ml & _ & _ & -> & Hpre).
    now exists pre, a, b, ml, uid.
Qed.




(** X3.  Whatever engine is plugged in, constraints it rejects (a falsy
    [is_valid]) are answered with 400 "Invalid constraints" after the single
    call to [validate]: neither the generator nor any model nor the storage
    layer is reached, and the engine's error list is not passed on. *)
Theorem rejected_constraints_stop_at_validation
    (E : app) (now : string) (c uid valid errors : pyval) (t : list call) :
  py_get c "user_id" PNone = Ok uid ->
  ConstraintEngine.validate (constraint_engine E) c = Ok (valid, errors) ->
  truthy valid = false ->
  generate_designs E now c t
  = (Ok ({[ "error" := PStr "Invalid constraints" ]}, 400),
     t ++ [CallValidate c]).
Proof.
  intros Huid Hvalidate Hvalid. unfold generate_designs.
  apply try_except_ok.
  unfold lift at 1. unfold bind at 1. rewrite Huid.
  unfold invoke at 1. unfold bind at 1. now rewrite Hvalidate, Hvalid.
Qed.

Lemma rejected_constraints_witness :
  generate_designs Sample.healthy Sample.timestamp (PDict Sample.small_area) []
  = (Ok ({[ "error" := PStr "Invalid constraints" ]}, 400),
     [] ++ [CallValidate (PDict Sample.small_area)]).
Proof.
  apply (rejected_constraints_stop_at_validation Sample.healthy
           Sample.timestamp (PDict Sample.small_area) PNone (PBool false)
           (PList [PStr "area is out of range"]) []).
  - vm_compute. reflexivity.
  - vm_compute. reflexivity.
  - reflexivity.
Defined.

Lemma py_get_not_a_dict (v : pyval) (key : string) (default : pyval) :
  (forall m, v <> PDict m) ->
  py_get v key default
  = Raise (Exn "AttributeError"
             ("'" +:+ type_name v +:+ "' object has no attribute 'get'")).
Proof. intros Hv. destruct v; try reflexivity. now destruct (Hv m). Qed.

(** X4.  A JSON body that is not an object (null, a number, a string, a
    list) is answered with 500 and the [AttributeError] text by the
    generation, ranking, cost-prediction and design-evaluation endpoints,
    before any collaborator is called. *)
Theorem non_object_body_is_a_500
    (E : app) (now design_id : string) (body : pyval) (t : list call) :
  (forall m, body <> PDict m) ->
  let answer : result response * list call :=
    (Ok ({[ "error" := PStr ("'" +:+ type_name body
                               +:+ "' object has no attribute 'get'") ]}, 500),
     t) in
  generate_designs E now body t = answer
  /\ get_rankings E body t = answer
  /\ predict_cost E body t = answer
  /\ evaluate_design E now design_id body t = answer.
Proof.
  intros Hbody answer. subst answer.
  unfold generate_designs, get_rankings, predict_cost, evaluate_design.
  rewrite ml_models_ready_true. cbn [negb].
  unfold try_except, bind, lift.
  rewrite !(py_get_not_a_dict body _ _ Hbody). now repeat split.
Qed.

Lemma non_object_body_witness :
  let answer : result response * list call :=
    (Ok ({[ "error" := PStr ("'" +:+ type_name (PList [])
                               +:+ "' object has no attribute 'get'") ]}, 500),
     []) in
  generate_designs Sample.healthy Sample.timestamp (PList []) [] = answer
  /\ get_rankings Sample.healthy (PList []) [] = answer
  /\ predict_cost Sample.healthy (PList []) [] = answer
  /\ evaluate_design Sample.healthy Sample.timestamp "1" (PList []) [] = answer.
Proof.
  apply (non_object_body_is_a_500 Sample.healthy Sample.timestamp "1"
           (PList []) []).
  intros m. discriminate.
Defined.

(** X5.  When the generator raises, the request is answered with 500 and the
    exception's text; the calls made are [validate] and [generate] only, so
    nothing is evaluated, ranked or stored. *)
Theorem generator_failure_is_a_500
    (E : app) (now : string) (c uid valid errors : pyval) (e : exn)
    (t : list call) :
  py_get c "user_id" PNone = Ok uid ->
  ConstraintEngine.validate (constraint_engine E) c = Ok (valid, errors) ->
  truthy valid = true ->
  DesignGenerator.generate (design_generator E) c = Raise e ->
  generate_designs E now c t
  = (Ok ({[ "error" := PStr (str_exn e) ]}, 500),
     t ++ [CallValidate c; CallGenerate c]).
Proof.
  intros Huid Hvalidate Hvalid Hgen. unfold generate_designs, try_except.
  unfold lift at 1. unfold bind at 1. rewrite Huid.
  unfold invoke at 1. unfold bind at 1. rewrite Hvalidate, Hvalid. cbn [negb].
  unfold invoke at 1. unfold bind at 1. rewrite Hgen.
  unfold ret, jsonify. now rewrite <- app_assoc.
Qed.

Lemma generator_failure_witness :
  let E :=
    {| py := py Sample.healthy;
       constraint_engine := constraint_engine Sample.healthy;
       design_generator :=
         {| DesignGenerator.generate := fun _ => Sample.unavailable |};
       evaluator := evaluator Sample.healthy;
       cost_predictor := cost_predictor Sample.healthy;
       design_ranker := design_ranker Sample.healthy;
       design_recommender := design_recommender Sample.healthy;
       data_loader := data_loader Sample.healthy;
       save_project := save_project Sample.healthy |} in
  generate_designs E Sample.timestamp (PDict Sample.constraints) []
  = (Ok ({[ "error" := PStr "unavailable" ]}, 500),
     [] ++ [CallValidate (PDict Sample.constraints);
            CallGenerate (PDict Sample.constraints)]).
Proof.
  intros E.
  apply (generator_failure_is_a_500 E Sample.timestamp
           (PDict Sample.constraints) PNone (PBool true) (PList [])
           (Exn "RuntimeError" "unavailable") []).
  - vm_compute. reflexivity.
  - vm_compute. reflexivity.
  - reflexivity.
  - reflexivity.
Defined.

(** ** Cost predictions *)



(** X7.  The cost-prediction endpoint tests the prediction against [None]
    only: an integer prediction, zero included, is answered with 200, the
    integer as [predicted_cost], the constant confidence 0.85 and the
    model's feature importance. *)
Theorem predict_cost_reports_any_integer
    (E : app) (req area budget climate priority id importance : pyval)
    (z : Z) (t : list call) :
  py_get req "area" (PInt 1000) = Ok area ->
  py_get req "budget" (PInt 50) = Ok budget ->
  py_get req "climate" (PStr "moderate") = Ok climate ->
  py_get req "priority" (PStr "energy") = Ok priority ->
  py_get req "design_id" (PInt 0) = Ok id ->
  SimpleCostPredictor.predict (cost_predictor E)
    area budget climate priority id = Ok (PInt z) ->
  SimpleCostPredictor.get_feature_importance (cost_predictor E)
  = Ok importance ->
  predict_cost E req t
  = (Ok ({[ "predicted_cost" := PInt z;
            "confidence" := PFloat 0.85%float;
            "feature_importance" := importance;
            "model" := PStr "LinearRegression" ]}, 200),
     t ++ [CallPredict area budget climate priority id; CallFeatureImportance]).
Proof.
  intros Ha Hb Hc Hp Hi Hpredict Himportance. unfold predict_cost.
  rewrite ml_models_ready_true. cbn [negb]. unfold try_except.
  unfold lift at 1. unfold bind at 1. rewrite Ha.
  unfold lift at 1. unfold bind at 1. rewrite Hb.
  unfold lift at 1. unfold bind at 1. rewrite Hc.
  unfold lift at 1. unfold bind at 1. rewrite Hp.
  unfold lift at 1. unfold bind at 1. rewrite Hi.
  unfold invoke at 1. unfold bind at 1. rewrite Hpredict. cbn [is_none].
  unfold invoke at 1. unfold bind at 1. rewrite Himportance.
  unfold lift, bind, ret, jsonify. simpl. now rewrite <- app_assoc.
Qed.

Lemma predict_cost_zero_witness :
  predict_cost
    (Sample.state (Ok (PInt 0)) (Ok (PList []))
       (Ok Sample.no_recommendation) (Ok (PInt 1)))
    (PDict Sample.constraints) []
  = (Ok ({[ "predicted_cost" := PInt 0;
            "confidence" := PFloat 0.85%float;
            "feature_importance" := PDict ∅;
            "model" := PStr "LinearRegression" ]}, 200),
     [] ++ [CallPredict (PInt 1200) (PInt 60) (PStr "hot") (PStr "water")
              (PInt 0); CallFeatureImportance]).
Proof.
  apply (predict_cost_reports_any_integer
           (Sample.state (Ok (PInt 0)) (Ok (PList []))
              (Ok Sample.no_recommendation) (Ok (PInt 1)))
           (PDict Sample.constraints)
           (PInt 1200) (PInt 60) (PStr "hot") (PStr "water") (PInt 0)
           (PDict ∅) 0 []).
  - vm_compute. reflexivity.
  - vm_compute. reflexivity.
  - vm_compute. reflexivity.
  - vm_compute. reflexivity.
  - vm_compute. reflexivity.
  - reflexivity.
  - reflexivity.
Defined.

(** X8.  For an object body the predictor is the first collaborator called,
    with the body's own [area], [budget], [climate], [priority] and
    [design_id]; a key that is missing is replaced by 1000, 50, "moderate",
    "energy" and 0 respectively, while a key that is present is passed on as
    it is, a [null] included. *)
Theorem predict_cost_defaults
    (E : app) (m : gmap string pyval) (t : list call) :
  let arg (key : string) (default : pyval) :=
    match m !! key with Some v => v | None => default end in
  exists (r : result response) (rest : list call),
    predict_cost E (PDict m) t
    = (r, t ++ CallPredict (arg "area" (PInt 1000)) (arg "budget" (PInt 50))
                 (arg "climate" (PStr "moderate"))
                 (arg "priority" (PStr "energy"))
                 (arg "design_id" (PInt 0)) :: rest).
Proof.
  intros arg. unfold predict_cost. rewrite ml_models_ready_true. cbn [negb].
  unfold try_except, bind, lift, invoke, py_get. fold (arg "area" (PInt 1000)).
  destruct (SimpleCostPredictor.predict _ _ _ _ _ _) as [v|e].
  - destruct (is_none v).
    + now eexists _, [].
    + destruct (SimpleCostPredictor.get_feature_importance _) as [imp|e].
      * destruct (py_int (py E) v); eexists _, [_];
          unfold ret; now rewrite <- app_assoc.
      * eexists _, [_]. unfold ret. now rewrite <- app_assoc.
  - now eexists _, [].
Qed.

(** ** The recommendation endpoint at the edges of its table *)





(** X10.  A recommender that raises, or whose answer lacks the key
    [recommended_design], turns the recommendation request into a 500 that
    carries the exception's text; for the missing key that text is the
    quoted key name. *)
Theorem get_recommendations_failures (E : app) (c : pyval) (t : list call) :
  (forall e,
      SimpleDesignRecommender.recommend_design (design_recommender E) c (Some 3)
      = Raise e ->
      get_recommendations E c t
      = (Ok ({[ "error" := PStr (str_exn e) ]}, 500),
         t ++ [CallRecommend c (Some 3)]))
  /\ (forall r : gmap string pyval,
        SimpleDesignRecommender.recommend_design (design_recommender E) c
          (Some 3) = Ok (PDict r) ->
        r !! "recommended_design" = None ->
        get_recommendations E c t
        = (Ok ({[ "error" := PStr "'recommended_design'" ]}, 500),
           t ++ [CallRecommend c (Some 3)])).
Proof.
  split.
  - intros e Hrec. unfold get_recommendations.
    rewrite ml_models_ready_true. cbn [negb]. unfold try_except.
    unfold invoke at 1. unfold bind at 1. now rewrite Hrec.
  - intros r Hrec Hmissing. unfold get_recommendations.
    rewrite ml_models_ready_true. cbn [negb]. unfold try_except.
    unfold invoke at 1. unfold bind at 1. rewrite Hrec.
    unfold lift, bind. simpl. now rewrite Hmissing.
Qed.

(** ** The ranking endpoint *)

(** X11.  A ranking request whose [designs] entry is missing or falsy (an
    empty list, [null], 0, an empty string) is answered with 400 "No designs
    provided" before any ranker is called. *)
Theorem get_rankings_without_designs
    (E : app) (m : gmap string pyval) (t : list call) :
  match m !! "designs" with
  | Some designs => truthy designs = false
  | None => True
  end ->
  get_rankings E (PDict m) t
  = (Ok ({[ "error" := PStr "No designs provided" ]}, 400), t).
Proof.
  intros Hdesigns. unfold get_rankings, try_except, bind, lift, py_get.
  destruct (m !! "designs") as [designs|]; [now rewrite Hdesigns|reflexivity].
Qed.

Lemma get_rankings_without_designs_witness :
  get_rankings Sample.healthy
    (PDict {[ "designs" := PList []; "constraints" := PDict Sample.constraints ]})
    []
  = (Ok ({[ "error" := PStr "No designs provided" ]}, 400), []).
Proof.
  apply (get_rankings_without_designs Sample.healthy
           {[ "designs" := PList [];
              "constraints" := PDict Sample.constraints ]} []).
  vm_compute. reflexivity.
Defined.

Lemma ranking_rows (E : app) (ps : list (gmap string pyval * float)) :
  rmap (ranking_row E) (ranked_pair <$> ps) = Ok (row_of (py E) <$> ps).
Proof.
  induction ps as [|[d s] ps IH]; [reflexivity|].
  rewrite !fmap_cons. cbn [rmap]. rewrite IH. reflexivity.
Qed.

(** X12.  When the ranker returns a list of (design, score) pairs with float
    scores, the ranking endpoint answers 200 with the rule-based rankings
    as the evaluator gave them, [total_designs = len(designs)], and
    [ml_rankings] holding one row per pair in the ranker's order, each with
    the design's [id] ([None] when it has none) and the score rounded to two
    digits.  When the ranker returns an empty list the key [ml_rankings] is
    left out. *)
Theorem get_rankings_ml_rows
    (E : app) (data designs cs rb : pyval) (n : Z)
    (ps : list (gmap string pyval * float)) (t : list call) :
  py_get data "designs" (PList []) = Ok designs ->
  py_get data "constraints" (PDict ∅) = Ok cs ->
  truthy designs = true ->
  SustainabilityEvaluator.rank_designs (evaluator E) designs = Ok rb ->
  py_len designs = Ok n ->
  SimpleDesignRanker.rank_designs (design_ranker E) designs cs
  = Ok (PList (ranked_pair <$> ps)) ->
  exists (body : gmap string pyval),
    get_rankings E data t
    = (Ok (body, 200), t ++ [CallRuleRank designs; CallMLRank designs cs])
    /\ body !! "rule_based_rankings" = Some rb
    /\ body !! "total_designs" = Some (PInt n)
    /\ body !! "ml_rankings"
       = match ps with
         | [] => None
         | _ :: _ => Some (PList (row_of (py E) <$> ps))
         end.
Proof.
  intros Hd Hc Htrue Hrule Hlen Hranked.
  assert (ml_rankings_of E designs cs = PList (row_of (py E) <$> ps)) as Hml.
  { unfold ml_rankings_of. rewrite Hranked. simpl. now rewrite ranking_rows. }
  eexists. split.
  - unfold get_rankings. apply try_except_ok.
    unfold lift at 1. unfold bind at 1. rewrite Hd.
    unfold lift at 1. unfold bind at 1. rewrite Hc, Htrue. cbn [negb].
    unfold invoke at 1. unfold bind at 1. rewrite Hrule.
    unfold bind at 1. rewrite ml_rank_run, Hml.
    unfold lift at 1. unfold bind at 1. rewrite Hlen.
    unfold ret, jsonify. rewrite <- app_assoc. reflexivity.
  - destruct ps as [|p ps].
    + now repeat split.
    + rewrite fmap_cons. cbn [truthy length Nat.eqb negb].
      split; [|split].
      * rewrite lookup_insert_ne by discriminate. apply lookup_insert_eq.
      * now rewrite !lookup_insert_ne by discriminate.
      * apply lookup_insert_eq.
Qed.

Lemma get_rankings_ml_rows_witness :
  let d : gmap string pyval := {[ "id" := PInt 2 ]} in
  let E :=
    Sample.state (Ok PNone)
      (Ok (PList (ranked_pair <$> [(d, 0.5%float)])))
      Sample.unavailable Sample.unavailable in
  exists (body : gmap string pyval),
    get_rankings E (PDict {[ "designs" := PList [PDict d] ]}) []
    = (Ok (body, 200),
       [] ++ [CallRuleRank (PList [PDict d]);
              CallMLRank (PList [PDict d]) (PDict ∅)])
    /\ body !! "rule_based_rankings" = Some (PList [PDict d])
    /\ body !! "total_designs" = Some (PInt 1)
    /\ body !! "ml_rankings" = Some (PList (row_of (py E) <$> [(d, 0.5%float)])).
Proof.
  intros d E.
  apply (get_rankings_ml_rows E (PDict {[ "designs" := PList [PDict d] ]})
           (PList [PDict d]) (PDict ∅) (PList [PDict d]) 1
           [(d, 0.5%float)] []).
  - vm_compute. reflexivity.
  - vm_compute. reflexivity.
  - reflexivity.
  - reflexivity.
  - reflexivity.
  - reflexivity.
Defined.

(** X13.  When the rule-based ranking raises, the ranking request is
    answered with 500 and the exception's text, and the ML ranker is not
    called at all. *)
Theorem get_rankings_rule_failure
    (E : app) (data designs cs : pyval) (e : exn) (t : list call) :
  py_get data "designs" (PList []) = Ok designs ->
  py_get data "constraints" (PDict ∅) = Ok cs ->
  truthy designs = true ->
  SustainabilityEvaluator.rank_designs (evaluator E) designs = Raise e ->
  get_rankings E data t
  = (Ok ({[ "error" := PStr (str_exn e) ]}, 500), t ++ [CallRuleRank designs]).
Proof.
  intros Hd Hc Htrue Hrule. unfold get_rankings, try_except.
  unfold lift at 1. unfold bind at 1. rewrite Hd.
  unfold lift at 1. unfold bind at 1. rewrite Hc, Htrue. cbn [negb].
  unfold invoke at 1. unfold bind at 1. now rewrite Hrule.
Qed.

Lemma get_rankings_rule_failure_witness :
  let E :=
    {| py := py Sample.healthy;
       constraint_engine := constraint_engine Sample.healthy;
       design_generator := design_generator Sample.healthy;
       evaluator :=
         {| SustainabilityEvaluator.evaluate := fun _ _ => Ok Sample.metrics;
            SustainabilityEvaluator.rank_designs :=
              fun _ => Raise (Exn "KeyError" "'metrics'") |};
       cost_predictor := cost_predictor Sample.healthy;
       design_ranker := design_ranker Sample.healthy;
       design_recommender := design_recommender Sample.healthy;
       data_loader := data_loader Sample.healthy;
       save_project := save_project Sample.healthy |} in
  get_rankings E (PDict {[ "designs" := PList [PInt 1] ]}) []
  = (Ok ({[ "error" := PStr "'metrics'" ]}, 500),
     [] ++ [CallRuleRank (PList [PInt 1])]).
Proof.
  intros E.
  apply (get_rankings_rule_failure E (PDict {[ "designs" := PList [PInt 1] ]})
           (PList [PInt 1]) (PDict ∅) (Exn "KeyError" "'metrics'") []).
  - vm_compute. reflexivity.
  - vm_compute. reflexivity.
  - reflexivity.
  - reflexivity.
Defined.

(** ** The validation endpoint with any engine *)

(** X14.  Whatever engine is plugged in, input it rejects is answered with
    400, [valid] false and the engine's [errors] value passed through
    unchanged; [process] and [calculate_feasibility] are not called. *)
Theorem validate_constraints_rejection
    (E : app) (data valid errors : pyval) (t : list call) :
  ConstraintEngine.validate (constraint_engine E) data = Ok (valid, errors) ->
  truthy valid = false ->
  validate_constraints E data t
  = (Ok ({[ "valid" := PBool false; "errors" := errors ]}, 400),
     t ++ [CallValidate data]).
Proof.
  intros Hvalidate Hvalid. unfold validate_constraints.
  apply try_except_ok.
  unfold invoke at 1. unfold bind at 1. now rewrite Hvalidate, Hvalid.
Qed.

Lemma validate_constraints_rejection_witness :
  validate_constraints Sample.healthy (PList []) []
  = (Ok ({[ "valid" := PBool false;
            "errors" := PList [PStr "area is required";
                               PStr "budget is required";
                               PStr "climate is required";
                               PStr "priority is required"] ]}, 400),
     [] ++ [CallValidate (PList [])]).
Proof.
  apply (validate_constraints_rejection Sample.healthy (PList []) (PBool false)
           (PList [PStr "area is required"; PStr "budget is required";
                   PStr "climate is required"; PStr "priority is required"])
           []).
  - vm_compute. reflexivity.
  - reflexivity.
Defined.

(** X15.  When [process] or [calculate_feasibility] raises on input the
    engine accepted, the validation request is answered with 500 and the
    exception's text rather than with a partial result. *)
Theorem validate_constraints_engine_failure
    (E : app) (data valid errors : pyval) (e : exn) (t : list call) :
  ConstraintEngine.validate (constraint_engine E) data = Ok (valid, errors) ->
  truthy valid = true ->
  (ConstraintEngine.process (constraint_engine E) data = Raise e
   \/ exists processed,
        ConstraintEngine.process (constraint_engine E) data = Ok processed
        /\ ConstraintEngine.calculate_feasibility (constraint_engine E) processed
           = Raise e) ->
  exists t',
    validate_constraints E data t
    = (Ok ({[ "error" := PStr (str_exn e) ]}, 500), t').
Proof.
  intros Hvalidate Hvalid Hfail. unfold validate_constraints, try_except.
  unfold invoke at 1. unfold bind at 1. rewrite Hvalidate, Hvalid. cbn [negb].
  unfold invoke, bind.
  destruct Hfail as [Hp | (processed & Hp & Hf)].
  - rewrite Hp. now eexists.
  - rewrite Hp, Hf. now eexists.
Qed.

Lemma validate_constraints_engine_failure_witness :
  let E :=
    {| py := py Sample.healthy;
       constraint_engine :=
         {| ConstraintEngine.validate := SpecModel.validate;
            ConstraintEngine.process := fun data => Ok data;
            ConstraintEngine.calculate_feasibility :=
              fun _ => Raise (Exn "ZeroDivisionError" "division by zero") |};
       design_generator := design_generator Sample.healthy;
       evaluator := evaluator Sample.healthy;
       cost_predictor := cost_predictor Sample.healthy;
       design_ranker := design_ranker Sample.healthy;
       design_recommender := design_recommender Sample.healthy;
       data_loader := data_loader Sample.healthy;
       save_project := save_project Sample.healthy |} in
  exists t',
    validate_constraints E (PDict Sample.constraints) []
    = (Ok ({[ "error" := PStr "division by zero" ]}, 500), t').
Proof.
  intros E.
  apply (validate_constraints_engine_failure E (PDict Sample.constraints)
           (PBool true) (PList [])
           (Exn "ZeroDivisionError" "division by zero") []).
  - vm_compute. reflexivity.
  - reflexivity.
  - right. exists (PDict Sample.constraints). split; reflexivity.
Defined.

(** ** Serving the frontend *)

(** X16.  A path that starts with [api/] is never served from the frontend
    directory: the answer is 404 "Endpoint not found" whatever the file
    system holds, even when a file of that name exists. *)
Theorem api_paths_are_not_served
    (fs : filesystem) (base rest : string) :
  serve_frontend_routes fs base ("api/" +:+ rest)
  = Body {[ "error" := PStr "Endpoint not found" ]} 404.
Proof.
  unfold serve_frontend_routes.
  assert (String.prefix "api/" ("api/" +:+ rest) = true) as ->; [|reflexivity].
  apply String.prefix_correct. simpl. now destruct rest.
Qed.

(** X17.  The catch-all route only ever sends a path that exists: either the
    requested path joined to the frontend directory, which is then a regular
    file, or the frontend's [index.html].  Every answer that is not a file
    is a 404. *)
Theorem serve_frontend_routes_sends_existing_files
    (fs : filesystem) (base path : string) :
  match serve_frontend_routes fs base path with
  | SendFile p =>
      path_exists fs p = true
      /\ ((p = path_join base path /\ path_isfile fs p = true)
          \/ p = path_join base "index.html")
  | Body _ code => code = 404
  end.
Proof.
  unfold serve_frontend_routes.
  destruct (String.prefix "api/" path); [reflexivity|].
  destruct (path_exists fs (path_join base path)) eqn:Hexists; simpl.
  - destruct (path_isfile fs (path_join base path)) eqn:Hfile; simpl.
    + split; [exact Hexists|]. now left.
    + destruct (path_exists fs (path_join base "index.html")) eqn:Hindex;
        [|reflexivity].
      split; [exact Hindex|]. now right.
  - destruct (path_exists fs (path_join base "index.html")) eqn:Hindex;
      [|reflexivity].
    split; [exact Hindex|]. now right.
Qed.

(** X18.  The requested path is joined to the frontend directory as it is:
    for a directory without a trailing slash and a relative path outside
    [api/], an existing regular file at [base/path] is sent under exactly
    that name.  Nothing normalises or rejects [..] segments, so a path that
    climbs out of the frontend directory is served like any other. *)
Theorem serve_frontend_routes_joins_verbatim
    (fs : filesystem) (base path : string) :
  String.prefix "api/" path = false ->
  String.prefix "/" path = false ->
  is_empty base = false ->
  ends_with_slash base = false ->
  path_exists fs (base +:+ "/" +:+ path) = true ->
  path_isfile fs (base +:+ "/" +:+ path) = true ->
  serve_frontend_routes fs base path = SendFile (base +:+ "/" +:+ path).
Proof.
  intros Hapi Habs Hbase Hslash Hexists Hfile.
  unfold serve_frontend_routes, path_join.
  rewrite Hapi, Habs, Hbase, Hslash. cbn [orb]. now rewrite Hexists, Hfile.
Qed.

Lemma serve_frontend_routes_joins_verbatim_witness :
  serve_frontend_routes
    {| path_exists := fun p => String.eqb p "/srv/app/frontend/dist/../../.env";
       path_isfile := fun p => String.eqb p "/srv/app/frontend/dist/../../.env" |}
    "/srv/app/frontend/dist" "../../.env"
  = SendFile ("/srv/app/frontend/dist" +:+ "/" +:+ "../../.env").
Proof.
  apply (serve_frontend_routes_joins_verbatim
           {| path_exists :=
                fun p => String.eqb p "/srv/app/frontend/dist/../../.env";
              path_isfile :=
                fun p => String.eqb p "/srv/app/frontend/dist/../../.env" |}
           "/srv/app/frontend/dist" "../../.env"); reflexivity.
Defined.

(** X19.  When the frontend has not been built (no [index.html]) the root
    route answers 200 with the "API active" body, while the catch-all route
    answers 404 "Not found" for every path outside [api/] that is not an
    existing regular file. *)
Theorem frontend_not_built (fs : filesystem) (base path : string) :
  path_exists fs (path_join base "index.html") = false ->
  String.prefix "api/" path = false ->
  path_exists fs (path_join base path) && path_isfile fs (path_join base path)
  = false ->
  serve_frontend_index fs base
  = Body {[ "status" := PStr "API active";
            "message" := PStr "Frontend not built" ]} 200
  /\ serve_frontend_routes fs base path
     = Body {[ "error" := PStr "Not found" ]} 404.
Proof.
  intros Hindex Hapi Hfile. unfold serve_frontend_index, serve_frontend_routes.
  now rewrite Hindex, Hapi, Hfile.
Qed.

Lemma frontend_not_built_witness :
  serve_frontend_index
    {| path_exists := fun _ => false; path_isfile := fun _ => false |}
    "/srv/app/frontend/dist"
  = Body {[ "status" := PStr "API active";
            "message" := PStr "Frontend not built" ]} 200
  /\ serve_frontend_routes
       {| path_exists := fun _ => false; path_isfile := fun _ => false |}
       "/srv/app/frontend/dist" "dashboard"
     = Body {[ "error" := PStr "Not found" ]} 404.
Proof.
  apply (frontend_not_built
           {| path_exists := fun _ => false; path_isfile := fun _ => false |}
           "/srv/app/frontend/dist" "dashboard"); reflexivity.
Defined.

(** ** Saved projects *)

(** X20.  Without a [limit] parameter the project list is read with limit
    50; a [user_id] parameter that is not made of digits is not an error but
    is ignored, the list being read with no user; and [guest] is on only for
    the exact value "1".  The answer is 200 with the list under [projects]. *)
Theorem get_projects_defaults
    (B : builtins) (db : Database.t) (args : gmap string string)
    (projects : pyval) (t : list db_call) :
  args !! "limit" = None ->
  match args !! "user_id" with
  | Some s => str_isdigit s = false
  | None => True
  end ->
  Database.list_projects db 50 None (guest_flag args) = Ok projects ->
  get_projects B db args t
  = (Ok (PDict {[ "projects" := projects ]}, 200),
     t ++ [CallListProjects 50 None (guest_flag args)]).
Proof.
  intros Hlimit Huser Hlist. unfold get_projects, t_try.
  fold (guest_flag args). rewrite Hlimit.
  unfold t_lift at 1. unfold t_bind at 1. cbn [py_int].
  destruct (args !! "user_id") as [s|].
  - rewrite Huser. unfold t_ret at 1. unfold t_bind at 1.
    unfold t_invoke, t_bind. now rewrite Hlist.
  - unfold t_ret at 1. unfold t_bind at 1.
    unfold t_invoke, t_bind. now rewrite Hlist.
Qed.

Lemma get_projects_defaults_witness :
  let db :=
    {| Database.list_projects := fun _ _ _ => Ok (PList []);
       Database.get_project := fun _ => Ok PNone;
       Database.create_user := fun _ _ _ => Ok PNone;
       Database.verify_user := fun _ _ => Ok PNone;
       Database.clear_projects := fun _ _ => Ok (PInt 0) |} in
  let args : gmap string string := {[ "user_id" := "abc"; "guest" := "true" ]} in
  get_projects Sample.builtins db args []
  = (Ok (PDict {[ "projects" := PList [] ]}, 200),
     [] ++ [CallListProjects 50 None (guest_flag args)]).
Proof.
  intros db args.
  apply (get_projects_defaults Sample.builtins db args (PList []) []).
  - vm_compute. reflexivity.
  - vm_compute. reflexivity.
  - reflexivity.
Defined.

(** X21.  A [limit] parameter that [int()] cannot parse is answered with 500
    and the parser's message, and the database is not read. *)
Theorem get_projects_bad_limit
    (B : builtins) (db : Database.t) (args : gmap string string)
    (s : string) (e : exn) (t : list db_call) :
  args !! "limit" = Some s ->
  int_of_str B s = Raise e ->
  get_projects B db args t = (Ok (error_reply (str_exn e) 500), t).
Proof.
  intros Hlimit Hparse. unfold get_projects, t_try.
  rewrite Hlimit. unfold t_lift at 1. unfold t_bind at 1. cbn [py_int].
  now rewrite Hparse.
Qed.

Lemma get_projects_bad_limit_witness :
  let db :=
    {| Database.list_projects := fun _ _ _ => Ok (PList []);
       Database.get_project := fun _ => Ok PNone;
       Database.create_user := fun _ _ _ => Ok PNone;
       Database.verify_user := fun _ _ => Ok PNone;
       Database.clear_projects := fun _ _ => Ok (PInt 0) |} in
  get_projects Sample.builtins db {[ "limit" := "ten" ]} []
  = (Ok (error_reply "invalid literal for int()" 500), []).
Proof.
  intros db.
  apply (get_projects_bad_limit Sample.builtins db {[ "limit" := "ten" ]}
           "ten" (Exn "ValueError" "invalid literal for int()") []).
  - vm_compute. reflexivity.
  - reflexivity.
Defined.

(** X22.  A project is reported as missing (404 "Project not found")
    whenever the database returns a falsy value, an empty dict as well as
    [None]; a truthy value is sent back unchanged with 200.  The database
    is read exactly once either way. *)
Theorem get_project_by_id_found_or_404
    (db : Database.t) (project_id : Z) (project : pyval) (t : list db_call) :
  Database.get_project db project_id = Ok project ->
  get_project_by_id db project_id t
  = (Ok (if truthy project then (project, 200)
         else error_reply "Project not found" 404),
     t ++ [CallGetProject project_id]).
Proof.
  intros Hget. unfold get_project_by_id, t_try, t_bind, t_invoke.
  rewrite Hget. now destruct (truthy project).
Qed.

Lemma get_project_by_id_witness :
  let db :=
    {| Database.list_projects := fun _ _ _ => Ok (PList []);
       Database.get_project := fun _ => Ok (PDict ∅);
       Database.create_user := fun _ _ _ => Ok PNone;
       Database.verify_user := fun _ _ => Ok PNone;
       Database.clear_projects := fun _ _ => Ok (PInt 0) |} in
  get_project_by_id db 7 []
  = (Ok (if truthy (PDict ∅) then (PDict ∅, 200)
         else error_reply "Project not found" 404),
     [] ++ [CallGetProject 7]).
Proof.
  intros db. apply (get_project_by_id_found_or_404 db 7 (PDict ∅) []).
  reflexivity.
Defined.

(** X23.  A clear request whose JSON body is falsy ([null], an empty
    object, an empty list, 0, [false]) is treated as an empty object:
    [clear_projects] is called with no user and with the guest flag off. *)
Theorem clear_project_history_without_body
    (db : Database.t) (body : pyval) (t : list db_call) :
  truthy body = false ->
  exists (r : result reply),
    clear_project_history db body t
    = (r, t ++ [CallClearProjects PNone false])
    /\ r = match Database.clear_projects db PNone false with
           | Ok deleted => Ok (PDict {[ "deleted" := deleted ]}, 200)
           | Raise e => Ok (error_reply (str_exn e) 500)
           end.
Proof.
  intros Hbody. unfold clear_project_history, t_try. rewrite Hbody.
  unfold t_bind, t_lift, t_invoke, py_get. rewrite !lookup_empty.
  cbn [truthy].
  destruct (Database.clear_projects db PNone false); eexists; split;
    reflexivity.
Qed.

Lemma clear_project_history_witness :
  let db :=
    {| Database.list_projects := fun _ _ _ => Ok (PList []);
       Database.get_project := fun _ => Ok PNone;
       Database.create_user := fun _ _ _ => Ok PNone;
       Database.verify_user := fun _ _ => Ok PNone;
       Database.clear_projects := fun _ _ => Ok (PInt 12) |} in
  exists (r : result reply),
    clear_project_history db PNone []
    = (r, [] ++ [CallClearProjects PNone false])
    /\ r = match Database.clear_projects db PNone false with
           | Ok deleted => Ok (PDict {[ "deleted" := deleted ]}, 200)
           | Raise e => Ok (error_reply (str_exn e) 500)
           end.
Proof.
  intros db. apply (clear_project_history_without_body db PNone []).
  reflexivity.
Defined.

(** ** Sign-up and login *)

Lemma str_lstrip_all_space (s : string) :
  all_space s = true -> str_lstrip s = "".
Proof.
  induction s as [|a s IH]; [reflexivity|]. simpl.
  intros [Ha Hs]%andb_true_iff. rewrite Ha. now apply IH.
Qed.

Lemma str_strip_all_space (s : string) : all_space s = true -> str_strip s = "".
Proof. intros Hs. unfold str_strip. now rewrite (str_lstrip_all_space s Hs). Qed.

Lemma stripped_field_blank (m : gmap string pyval) (key : string) :
  blank_field m key -> stripped_field (PDict m) key = Ok "".
Proof.
  unfold blank_field, stripped_field, py_get, rbind.
  destruct (m !! key) as [[]|]; try contradiction; try reflexivity.
  intros Hs. simpl. now rewrite (str_strip_all_space _ Hs).
Qed.

Lemma stripped_field_text (m : gmap string pyval) (key : string) :
  text_field m key -> exists s, stripped_field (PDict m) key = Ok s.
Proof.
  unfold text_field, stripped_field, py_get, rbind.
  destruct (m !! key) as [[]|]; try contradiction; intros _; now eexists.
Qed.

(** X24.  Sign-up and login answer 400 without touching the database when a
    required field is missing, empty or made of whitespace only: name, email
    or password for sign-up, email or password for login. *)
Theorem blank_credentials_are_rejected
    (db : Database.t) (m : gmap string pyval) (t : list db_call) :
  text_field m "name" -> text_field m "email" -> text_field m "password" ->
  (blank_field m "name" \/ blank_field m "email" \/ blank_field m "password" ->
   signup db (PDict m) t
   = (Ok (error_reply "Name, email, and password are required" 400), t))
  /\ (blank_field m "email" \/ blank_field m "password" ->
      login db (PDict m) t
      = (Ok (error_reply "Email and password are required" 400), t)).
Proof.
  intros Hname Hemail Hpassword.
  destruct (stripped_field_text m "name" Hname) as [n Hn].
  destruct (stripped_field_text m "email" Hemail) as [e He].
  destruct (stripped_field_text m "password" Hpassword) as [p Hp].
  split.
  - intros Hblank. unfold signup, t_try, t_bind, t_lift.
    rewrite Hn, He, Hp.
    assert (is_empty n || is_empty e || is_empty p = true) as ->;
      [|reflexivity].
    destruct Hblank as [H | [H | H]]; apply stripped_field_blank in H.
    + rewrite Hn in H. injection H as ->. reflexivity.
    + rewrite He in H. injection H as ->. apply orb_true_iff. left.
      apply orb_true_r.
    + rewrite Hp in H. injection H as ->. apply orb_true_r.
  - intros Hblank. unfold login, t_try, t_bind, t_lift.
    rewrite He, Hp.
    assert (is_empty e || is_empty p = true) as ->; [|reflexivity].
    destruct Hblank as [H | H]; apply stripped_field_blank in H.
    + rewrite He in H. injection H as ->. reflexivity.
    + rewrite Hp in H. injection H as ->. apply orb_true_r.
Qed.

Lemma blank_credentials_witness :
  let m : gmap string pyval :=
    {[ "name" := PStr "Ada"; "email" := PStr "   "; "password" := PStr "x" ]} in
  (blank_field m "name" \/ blank_field m "email" \/ blank_field m "password" ->
   signup SampleDb.db (PDict m) []
   = (Ok (error_reply "Name, email, and password are required" 400), []))
  /\ (blank_field m "email" \/ blank_field m "password" ->
      login SampleDb.db (PDict m) []
      = (Ok (error_reply "Email and password are required" 400), [])).
Proof.
  intros m.
  apply (blank_credentials_are_rejected SampleDb.db m []); vm_compute; exact I.
Defined.

(** X25.  When [create_user] raises and the exception's text contains
    "duplicate" or "unique" in any letter case, sign-up answers 409 "Email
    already exists"; the text itself is not sent. *)
Theorem signup_conflict
    (db : Database.t) (data : pyval) (name email password : string) (e : exn)
    (t : list db_call) :
  stripped_field data "name" = Ok name ->
  stripped_field data "email" = Ok email ->
  stripped_field data "password" = Ok password ->
  is_empty name || is_empty email || is_empty password = false ->
  Database.create_user db name email password = Raise e ->
  str_contains "duplicate" (str_lower (str_exn e))
  || str_contains "unique" (str_lower (str_exn e)) = true ->
  signup db data t
  = (Ok (error_reply "Email already exists" 409),
     t ++ [CallCreateUser name email password]).
Proof.
  intros Hn He Hp Hfilled Hcreate Hdup.
  unfold signup, t_try, t_bind, t_lift, t_invoke.
  now rewrite Hn, He, Hp, Hfilled, Hcreate, Hdup.
Qed.

Lemma signup_conflict_witness :
  signup SampleDb.db
    (PDict {[ "name" := PStr "Ada"; "email" := PStr " ada@example.org ";
              "password" := PStr "pw" ]}) []
  = (Ok (error_reply "Email already exists" 409),
     [] ++ [CallCreateUser "Ada" "ada@example.org" "pw"]).
Proof.
  apply (signup_conflict SampleDb.db _ "Ada" "ada@example.org" "pw"
           (Exn "IntegrityError" "UNIQUE constraint failed: users.email") []);
    vm_compute; reflexivity.
Defined.





(** X28.  A sign-up or login field that is present but is not a string (a
    number, an object, an explicit [null]) is not reported as missing: the
    request is answered with 500 and the [AttributeError] text, and the
    database is not touched. *)
Theorem non_text_credentials_are_a_500
    (db : Database.t) (m : gmap string pyval) (v : pyval) (t : list db_call) :
  m !! "email" = Some v ->
  (forall s, v <> PStr s) ->
  text_field m "name" ->
  let answer : result reply * list db_call :=
    (Ok (error_reply ("'" +:+ type_name v
                        +:+ "' object has no attribute 'strip'") 500), t) in
  signup db (PDict m) t = answer /\ login db (PDict m) t = answer.
Proof.
  intros Hv Hnot Hname answer. subst answer.
  destruct (stripped_field_text m "name" Hname) as [n Hn].
  assert (stripped_field (PDict m) "email"
          = Raise (Exn "AttributeError"
                     ("'" +:+ type_name v
                        +:+ "' object has no attribute 'strip'"))) as He.
  { unfold stripped_field, py_get, rbind. rewrite Hv.
    destruct v; try reflexivity. now destruct (Hnot s). }
  unfold signup, login, t_try, t_bind, t_lift. now rewrite Hn, He.
Qed.

Lemma non_text_credentials_witness :
  let m : gmap string pyval := {[ "email" := PNone; "password" := PStr "pw" ]} in
  let answer : result reply * list db_call :=
    (Ok (error_reply ("'" +:+ type_name PNone
                        +:+ "' object has no attribute 'strip'") 500), []) in
  signup SampleDb.db (PDict m) [] = answer
  /\ login SampleDb.db (PDict m) [] = answer.
Proof.
  intros m.
  apply (non_text_credentials_are_a_500 SampleDb.db m PNone []).
  - vm_compute. reflexivity.
  - intros s. discriminate.
  - vm_compute. exact I.
Defined.

(** ** Evaluating a single design *)

(** X29.  The design-evaluation endpoint asks for a truthy [design] and a
    truthy [constraints]: when either is missing, [null] or an empty object,
    the answer is 400 "Missing design or constraints" and the evaluator is
    not called. *)
Theorem evaluate_design_missing_input
    (E : app) (now design_id : string) (m : gmap string pyval)
    (t : list call) :
  match m !! "design" with
  | Some design => truthy design = false
  | None => True
  end
  \/ match m !! "constraints" with
     | Some constraints => truthy constraints = false
     | None => True
     end ->
  evaluate_design E now design_id (PDict m) t
  = (Ok ({[ "error" := PStr "Missing design or constraints" ]}, 400), t).
Proof.
  intros Hmissing. unfold evaluate_design, try_except, bind, lift, py_get.
  assert (negb (truthy match m !! "design" with
                       | Some v => v
                       | None => PNone
                       end)
          || negb (truthy match m !! "constraints" with
                          | Some v => v
                          | None => PNone
                          end) = true) as ->; [|reflexivity].
  destruct Hmissing as [H | H].
  - destruct (m !! "design"); [now rewrite H|reflexivity].
  - apply orb_true_iff. right.
    destruct (m !! "constraints"); [now rewrite H|reflexivity].
Qed.

Lemma evaluate_design_missing_input_witness :
  evaluate_design Sample.healthy Sample.timestamp "1"
    (PDict {[ "design" := PDict ∅;
              "constraints" := PDict Sample.constraints ]}) []
  = (Ok ({[ "error" := PStr "Missing design or constraints" ]}, 400), []).
Proof.
  apply (evaluate_design_missing_input Sample.healthy Sample.timestamp "1"
           {[ "design" := PDict ∅;
              "constraints" := PDict Sample.constraints ]} []).
  left. vm_compute. reflexivity.
Defined.

(** ** The choice of database layer *)

(** X30.  Supabase is used, and [use_supabase] set, exactly when the import
    of [test_connection] succeeds, [test_connection()] returns a truthy
    value and the import of the Supabase functions succeeds; in every other
    case, a falsy answer or an exception at any of the three steps, the
    SQLite layer is bound and the flag stays false. *)
Theorem select_database_falls_back
    (import_test_connection : result unit) (test_connection : result pyval)
    (import_functions : result unit) :
  let choice :=
    select_database import_test_connection test_connection import_functions in
  (choice = (Supabase, true) \/ choice = (SQLite, false))
  /\ (choice = (Supabase, true)
      <-> import_test_connection = Ok tt
          /\ (exists v, test_connection = Ok v /\ truthy v = true)
          /\ import_functions = Ok tt).
Proof.
  intros choice. subst choice. unfold select_database, try_supabase, rbind.
  destruct import_test_connection as [[]|e1].
  2:{ split; [now right|]. split; [discriminate|]. now intros [? _]. }
  destruct test_connection as [v|e2].
  2:{ split; [now right|]. split; [discriminate|].
      now intros (_ & (v & ? & _) & _). }
  destruct (truthy v) eqn:Hv.
  2:{ split; [now right|]. split; [discriminate|].
      intros (_ & (w & Hw & Htrue) & _). injection Hw as <-. congruence. }
  destruct import_functions as [[]|e3].
  - split; [now left|]. split; [|reflexivity].
    intros _. repeat split. now exists v.
  - split; [now right|]. split; [discriminate|]. now intros (_ & _ & ?).
Qed.

(** * The evaluation loop on the store

    The properties above are stated for [evaluate_all], which threads the
    updated dicts.  The lemmas below relate it to the loop that updates the
    objects in place: on a list of references without a repetition, none of
    them the request body, both loops make the same calls in the same order,
    fail alike, and the objects end up holding the dicts that were threaded.
    With one object at several positions they differ, as the last lemma
    shows. *)

Lemma deref_insert_eq (h : gmap nat pyval) (l : nat) (v : pyval) :
  deref (<[l := v]> h) l = v.
Proof. unfold deref. now rewrite lookup_insert_eq. Qed.

Lemma deref_insert_ne (h : gmap nat pyval) (l l' : nat) (v : pyval) :
  l <> l' -> deref (<[l := v]> h) l' = deref h l'.
Proof. intros Hne. unfold deref. now rewrite lookup_insert_ne. Qed.

Lemma deref_frame (h h' : gmap nat pyval) (locs : list nat) :
  (forall l, l ∉ locs -> h' !! l = h !! l) ->
  forall l, l ∉ locs -> deref h' l = deref h l.
Proof. intros Hframe l Hl. unfold deref. now rewrite Hframe. Qed.

(** The optional cost prediction never raises; in place it changes the
    design's object only, into the dict that [add_predicted_cost] returns. *)
Lemma add_predicted_cost_in_place_agrees (E : app) (cl l : nat) (idx : Z)
    (h : gmap nat pyval) (t : list call) :
  exists v' h' t',
    add_predicted_cost E (deref h cl) idx (deref h l) t = (Ok v', t')
    /\ add_predicted_cost_in_place E cl idx l h t = (Ok h', t')
    /\ ((v' = deref h l /\ h' = h) \/ h' = <[l := v']> h).
Proof.
  unfold add_predicted_cost, add_predicted_cost_in_place.
  destruct (ml_models_ready E).
  2:{ exists (deref h l), h, t. repeat split; auto. }
  unfold try_except, bind, lift, invoke, ret.
  destruct (py_getitem (deref h cl) "area") as [area|e].
  2:{ exists (deref h l), h, t. repeat split; auto. }
  destruct (py_getitem (deref h cl) "budget") as [budget|e].
  2:{ exists (deref h l), h, t. repeat split; auto. }
  destruct (py_getitem (deref h cl) "climate") as [climate|e].
  2:{ exists (deref h l), h, t. repeat split; auto. }
  destruct (py_getitem (deref h cl) "priority") as [priority|e].
  2:{ exists (deref h l), h, t. repeat split; auto. }
  destruct (SimpleCostPredictor.predict _ _ _ _ _ _) as [cost|e].
  2:{ eexists (deref h l), h, _. repeat split; auto. }
  destruct (truthy cost).
  2:{ eexists (deref h l), h, _. repeat split; auto. }
  destruct (py_setitem (deref h l) "ml_predicted_cost" cost) as [u|e].
  - eexists u, (<[l := u]> h), _. repeat split; auto.
  - eexists (deref h l), h, _. repeat split; auto.
Qed.

(** One turn of the loop: the same calls and the same failure, and on
    success the design's object holds the threaded dict while every other
    object is as before. *)
Lemma evaluate_one_in_place_agrees (E : app) (cl l : nat) (idx : Z)
    (h : gmap nat pyval) (t : list call) :
  cl <> l ->
  match evaluate_one E (deref h cl) idx (deref h l) t with
  | (Ok v', t') =>
      exists h',
        evaluate_one_in_place E cl idx l h t = (Ok h', t')
        /\ deref h' l = v'
        /\ forall l', l' <> l -> h' !! l' = h !! l'
  | (Raise e, t') => evaluate_one_in_place E cl idx l h t = (Raise e, t')
  end.
Proof.
  intros Hne. unfold evaluate_one, evaluate_one_in_place.
  unfold bind at 1 3. unfold invoke.
  destruct (SustainabilityEvaluator.evaluate _ _ _) as [metrics|e];
    [|reflexivity].
  unfold bind, lift.
  destruct (py_setitem (deref h l) "metrics" metrics) as [u|e];
    [|reflexivity].
  destruct (add_predicted_cost_in_place_agrees E cl l idx (<[l := u]> h)
              (t ++ [CallEvaluate (deref h l) (deref h cl)]))
    as (v' & h' & t' & Hvalue & Hplace & Hcase).
  rewrite deref_insert_eq in Hvalue, Hcase.
  rewrite (deref_insert_ne h l cl u) in Hvalue by congruence.
  rewrite Hvalue. exists h'. split; [exact Hplace|].
  destruct Hcase as [[-> ->] | ->].
  - split; [apply deref_insert_eq|].
    intros l' Hl'. now rewrite lookup_insert_ne.
  - split; [apply deref_insert_eq|].
    intros l' Hl'. now rewrite !lookup_insert_ne.
Qed.

(** The whole loop over references without a repetition. *)
Lemma evaluate_all_in_place_agrees (E : app) (cl : nat) (locs : list nat) :
  NoDup locs -> cl ∉ locs ->
  forall (idx : Z) (h : gmap nat pyval) (t : list call),
  match evaluate_all E (deref h cl) idx (deref h <$> locs) t with
  | (Ok es, t') =>
      exists h',
        evaluate_all_in_place E cl idx locs h t = (Ok h', t')
        /\ deref h' <$> locs = es
        /\ forall l', l' ∉ locs -> h' !! l' = h !! l'
  | (Raise e, t') => evaluate_all_in_place E cl idx locs h t = (Raise e, t')
  end.
Proof.
  induction locs as [|l rest IH]; intros Hnodup Hcl idx h t.
  - exists h. now repeat split.
  - apply NoDup_cons in Hnodup as [Hl Hrest].
    apply not_elem_of_cons in Hcl as [Hne Hcl].
    cbn [fmap list_fmap evaluate_all evaluate_all_in_place].
    change (list_fmap nat pyval (deref h) rest) with (deref h <$> rest).
    unfold bind.
    pose proof (evaluate_one_in_place_agrees E cl l idx h t Hne) as Hone.
    destruct (evaluate_one E (deref h cl) idx (deref h l) t)
      as [[v'|e] t1]; [|now rewrite Hone].
    destruct Hone as (h1 & Hrun1 & Hv' & Hframe1). rewrite Hrun1.
    specialize (IH Hrest Hcl (idx + 1) h1 t1).
    assert (deref h1 cl = deref h cl) as Hc
      by (unfold deref; now rewrite Hframe1).
    assert (deref h1 <$> rest = deref h <$> rest) as Hvalues.
    { apply Forall_fmap_ext_1, Forall_forall. intros l' Hl'. unfold deref.
      rewrite Hframe1; [reflexivity|]. intros ->. contradiction. }
    rewrite Hc, Hvalues in IH.
    destruct (evaluate_all E (deref h cl) (idx + 1) (deref h <$> rest) t1)
      as [[es|e] t2]; [|exact IH].
    destruct IH as (h2 & Hrun2 & Hes & Hframe2).
    exists h2. split; [exact Hrun2|]. split.
    + cbn [fmap list_fmap]. f_equal; [|exact Hes].
      unfold deref. rewrite (Hframe2 l Hl). exact Hv'.
    + intros l' Hl'. apply not_elem_of_cons in Hl' as [Hl'1 Hl'2].
      rewrite (Hframe2 l' Hl'2). now apply Hframe1.
Qed.

(** The same for generated dicts that are [unshared]: whatever references
    hold them, no reference is repeated and none is the request body, so
    the loop in place ends with the objects holding what [evaluate_all]
    returns. *)
Lemma evaluate_all_in_place_unshared (E : app) (cl : nat) (locs : list nat)
    (c : pyval) (ds : list (gmap string pyval)) (idx : Z)
    (h : gmap nat pyval) (t : list call) :
  deref h cl = c -> deref h <$> locs = PDict <$> ds -> unshared c ds ->
  match evaluate_all E c idx (PDict <$> ds) t with
  | (Ok es, t') =>
      exists h',
        evaluate_all_in_place E cl idx locs h t = (Ok h', t')
        /\ deref h' <$> locs = es
  | (Raise e, t') => evaluate_all_in_place E cl idx locs h t = (Raise e, t')
  end.
Proof.
  intros Hc Hds [Hnodup Hnotin].
  assert (NoDup locs) as Hlocs.
  { apply (NoDup_fmap_1 (deref h)). rewrite Hds.
    apply NoDup_fmap_2; [|exact Hnodup]. intros x y Heq. now injection Heq. }
  assert (cl ∉ locs) as Hcl.
  { intros Hin. apply Hnotin. rewrite <- Hds, <- Hc.
    now apply list_elem_of_fmap_2. }
  pose proof (evaluate_all_in_place_agrees E cl locs Hlocs Hcl idx h t) as H.
  rewrite Hc, Hds in H.
  destruct (evaluate_all E c idx (PDict <$> ds) t) as [[es|e] t']; [|exact H].
  destruct H as (h' & Hrun & Hes & _). now exists h'.
Qed.

(** One dict handed out three times: in place every position ends with the
    cost that was predicted for the last index, whereas threading the dicts
    gives it to the last position only. *)
Lemma evaluate_all_in_place_shared :
  (exists h' t',
     evaluate_all_in_place Shared.state 0 0 [1; 1; 1]%nat Shared.store []
     = (Ok h', t')
     /\ deref h' <$> [1; 1; 1]%nat
        = [Shared.with_cost; Shared.with_cost; Shared.with_cost])
  /\ (exists t',
        evaluate_all Shared.state (deref Shared.store 0) 0
          (deref Shared.store <$> [1; 1; 1]%nat) []
        = (Ok [Shared.without_cost; Shared.without_cost; Shared.with_cost],
           t')).
Proof.
  split.
  - eexists _, _. split; [vm_compute; reflexivity|]. vm_compute. reflexivity.
  - eexists. vm_compute. reflexivity.
Qed.
